(** * AssetRipperServer: task queue and worker supervision

    A shallow embedding of
      - app/schemas.py           (TaskStatus)
      - app/models.py            (Task, CleanupLog)
      - app/utils/file_utils.py  (get_directory_size, save_upload_file, task paths)
      - app/core/assetripper.py  (AssetRipperManager)
      - app/core/task_queue.py   (TaskQueueManager)
      - app/core/file_cleanup.py (_cleanup_old_files)
      - app/api/v1/endpoints     (upload_file, get_task, download_assets, delete_task)

    Conventions.
      - The [tasks] table is a finite map from the primary key [id] to the
        remaining columns of the row; [UPDATE ... WHERE id = k] is [alter]
        at [k], a [SELECT ... WHERE status = s] followed by attribute
        assignments and a commit is a map over the rows.
      - What the worker process, the file system and the clock answer is
        supplied by an environment record, one per operation.  Logging calls
        return.  In [TaskQueueManager] the calls on the store return as well;
        [WithFaults] has the same methods with calls that raise, and
        [HealthCheckTask] the supervisor's methods as the health-check task
        runs them.
      - A Python coroutine that can raise returns [Result]; exception classes
        are the constructors of [ExnClass], with [isinstance] written out. *)

From stdpp Require Import base numbers list strings gmap pretty.

#[local] Set Warnings "-register-all,-clear-no-such-hyp".

Local Open Scope string_scope.
Local Open Scope list_scope.
Local Open Scope Z_scope.

(** ** app/schemas.py: TaskStatus *)

Module TaskStatus.
Definition PENDING : string := "PENDING".
Definition PROCESSING : string := "PROCESSING".
Definition COMPLETED : string := "COMPLETED".
Definition FAILED : string := "FAILED".
End TaskStatus.

(** ** app/models.py: Task

    [datetime] values are integers (microseconds since the epoch); the
    primary key [id] is the key of the store. *)

Definition datetime := Z.

Record Task := mkTask {
  status : string;
  created_at : datetime;
  started_at : option datetime;
  completed_at : option datetime;
  original_filename : string;
  upload_path : string;
  file_size_bytes : Z;
  file_hash : option string;
  export_path : option string;
  export_size_bytes : option Z;
  error_message : option string;
  retry_count : Z;
  user_ip : option string
}.

Abbreviation Store := (gmap string Task).

(** The three column assignments the queue manager writes. *)

(** [status=PROCESSING, started_at=now] (task_queue.py, lines 155-156). *)
Definition set_processing (now : datetime) (t : Task) : Task :=
  mkTask TaskStatus.PROCESSING (created_at t) (Some now) (completed_at t)
         (original_filename t) (upload_path t) (file_size_bytes t) (file_hash t)
         (export_path t) (export_size_bytes t) (error_message t)
         (retry_count t) (user_ip t).

(** [status=COMPLETED, completed_at=now, export_path=p, export_size_bytes=n,
    error_message=None] (task_queue.py, lines 199-205). *)
Definition set_completed (now : datetime) (p : string) (n : Z) (t : Task) : Task :=
  mkTask TaskStatus.COMPLETED (created_at t) (started_at t) (Some now)
         (original_filename t) (upload_path t) (file_size_bytes t) (file_hash t)
         (Some p) (Some n) None
         (retry_count t) (user_ip t).

(** [status=FAILED, completed_at=now, error_message=msg]
    (task_queue.py, lines 237-241 and 263-265). *)
Definition set_failed (now : datetime) (msg : string) (t : Task) : Task :=
  mkTask TaskStatus.FAILED (created_at t) (started_at t) (Some now)
         (original_filename t) (upload_path t) (file_size_bytes t) (file_hash t)
         (export_path t) (export_size_bytes t) (Some msg)
         (retry_count t) (user_ip t).

(** ** Exceptions and results

    The exception classes the modelled code raises or lets through.
    [AssetRipperConnectionError] and [AssetRipperProcessError] derive from
    [AssetRipperError] (assetripper.py, lines 15-30); [SQLAlchemyError] is
    the base class of what a session raises; the others are Python built-ins.
    All derive from [Exception]. *)

Inductive ExnClass :=
| AssetRipperError
| AssetRipperConnectionError
| AssetRipperProcessError
| FileNotFoundError
| RuntimeError
| OSError
| UnboundLocalError
| SQLAlchemyError.

#[global] Instance ExnClass_eq_dec : EqDecision ExnClass.
Proof. solve_decision. Defined.

(** [isinstance(e, AssetRipperError)]. *)
Definition is_AssetRipperError (c : ExnClass) : bool :=
  match c with
  | AssetRipperError | AssetRipperConnectionError | AssetRipperProcessError => true
  | FileNotFoundError | RuntimeError | OSError | UnboundLocalError
  | SQLAlchemyError => false
  end.

(** An exception object: its class and [str(e)]. *)
Record Exn := mkExn { exn_class : ExnClass; exn_str : string }.

Inductive Result (A : Type) :=
| Ok (a : A)
| Raise (e : Exn).
Arguments Ok {A} a.
Arguments Raise {A} e.

(** How a call that mutates [self] ends; the state it leaves is returned
    next to it, since assignments made before a [raise] stay. *)
Inductive Outcome :=
| Returned
| Raised (e : Exn).

(** What one request to the worker's HTTP server comes to.  [detail] is the
    text of the httpx exception ([HTTPStatusError] for a response whose
    [raise_for_status] fails). *)
Inductive HttpReply :=
| Response (status_code : Z) (detail : string)
| TimeoutException (detail : string)   (* httpx.TimeoutException *)
| RequestError (detail : string)       (* any other httpx.RequestError *)
| OtherError (detail : string).        (* not an httpx.RequestError, e.g. a
                                          RuntimeError of a closed client *)

(** httpx: [Response.is_success], what [raise_for_status] tests. *)
Definition is_success (status_code : Z) : bool :=
  (200 <=? status_code) && (status_code <=? 299).

(** ** app/config.py: the settings the modelled code reads *)

Record Settings := mkSettings {
  assetripper_host : option string;
  assetripper_port : Z;
  assetripper_startup_timeout : Z;
  upload_dir : string;
  export_dir : string
}.

(** [assetripper_base_url] (config.py, lines 82-87); a string is falsy when
    empty. *)
Definition assetripper_base_url (settings : Settings) : string :=
  match assetripper_host settings with
  | Some h => if decide (h = "") then "http://localhost:" +:+ pretty (assetripper_port settings) else h
  | None => "http://localhost:" +:+ pretty (assetripper_port settings)
  end.

(** ** app/utils/file_utils.py *)

(** What a path names: a regular file of some size, a directory with its
    entries, or something that is neither. *)
Inductive Node :=
| File (st_size : Z)
| Dir (entries : list (string * Node))
| Other.

Definition is_file (n : Node) : bool :=
  match n with File _ => true | _ => false end.

Definition st_size (n : Node) : Z :=
  match n with File sz => sz | _ => 0 end.

(** [directory.rglob("*")]: every entry of the directory, then the same for
    each of its subdirectories in turn; nothing for a path that is not a
    directory. *)
Fixpoint rglob (directory : Node) : list Node :=
  match directory with
  | Dir entries =>
      map snd entries ++
      (fix below (es : list (string * Node)) : list Node :=
         match es with
         | [] => []
         | (_, child) :: es' => rglob child ++ below es'
         end) entries
  | File _ | Other => []
  end.

(** [get_directory_size] (file_utils.py, lines 60-76). *)
Definition get_directory_size (directory : Node) : Z :=
  fold_left
    (fun total_size item =>
       if is_file item then total_size + st_size item else total_size)
    (rglob directory) 0.

(** [Path / name] as text, for paths written the way pathlib prints them (no
    empty component, no [.], no slash at the end): for a relative [name] the
    path with [name] appended, for an absolute one [name] itself.  The paths
    of a client's choosing go through [parse_path] below. *)
Definition is_absolute (p : string) : bool :=
  String.prefix "/" p.

Definition joinpath (p name : string) : string :=
  if is_absolute name then name else p +:+ "/" +:+ name.

(** [Path.absolute()] in working directory [cwd]. *)
Definition absolute (cwd p : string) : string :=
  if is_absolute p then p else cwd +:+ "/" +:+ p.

(** [get_task_export_dir] and [get_task_assets_dir]
    (file_utils.py, lines 169-192). *)
Definition get_task_export_dir (settings : Settings) (task_id : string) : string :=
  joinpath (export_dir settings) task_id.

Definition get_task_assets_dir (settings : Settings) (task_id : string) : string :=
  joinpath (get_task_export_dir settings task_id) "Assets".

(** ** Logging

    The records a call hands to [logger], in order, where a statement about
    the call speaks of them.  [logger.exception] logs at level ERROR. *)

Inductive LogLevel := INFO | WARNING | ERROR.

Definition LogRecord : Type := LogLevel * string.

(** * app/core/assetripper.py: AssetRipperManager *)

(** An [asyncio.Task] held in an attribute. *)
Inductive TaskHandle := Scheduled | Cancelled.

#[global] Instance TaskHandle_eq_dec : EqDecision TaskHandle.
Proof. solve_decision. Defined.

(** An [asyncio.subprocess.Process].  Its [returncode] changes when the
    child exits, so it is read from the environment at each use. *)
Record Process := mkProcess { pid : Z }.

(** One pass of the polling loop of [_wait_for_ready]. *)
Record Poll := mkPoll {
  poll_returncode : option Z;   (* [self.process.returncode] at line 238 *)
  poll_reply : HttpReply        (* [GET /] at line 251 *)
}.

(** What [start] meets: the result of [create_subprocess_exec], the passes of
    [_wait_for_ready] that begin before the startup deadline, and the return
    code seen by the pass that finds the deadline gone. *)
Record StartEnv := mkStartEnv {
  spawn : Result Process;
  polls : list Poll;
  final_returncode : option Z
}.

(** What one pass of [_health_check_loop] meets. *)
Record CheckEnv := mkCheckEnv {
  observed_returncode : option Z;   (* [self.process.returncode], line 271 *)
  probe : HttpReply;                (* [GET /], line 279 *)
  restart_env : StartEnv            (* for the restart, when one is made *)
}.

(** The calls [_attempt_restart] makes, in order. *)
Inductive SupervisorCall :=
| CallStop
| CallSleep (seconds : Z)
| CallStart.

Module AssetRipperManager.

Record t := mk {
  process : option Process;
  client : option string;            (* the httpx client, by its base URL *)
  health_check_task : option TaskHandle;
  _is_healthy : bool;
  _restart_count : Z;
  _max_restarts : Z;
  _use_external_host : bool
}.

Definition set_process (p : option Process) (self : t) : t :=
  mk p (client self) (health_check_task self) (_is_healthy self)
     (_restart_count self) (_max_restarts self) (_use_external_host self).

Definition set_client (c : option string) (self : t) : t :=
  mk (process self) c (health_check_task self) (_is_healthy self)
     (_restart_count self) (_max_restarts self) (_use_external_host self).

Definition set_health_check_task (h : option TaskHandle) (self : t) : t :=
  mk (process self) (client self) h (_is_healthy self)
     (_restart_count self) (_max_restarts self) (_use_external_host self).

Definition set_is_healthy (b : bool) (self : t) : t :=
  mk (process self) (client self) (health_check_task self) b
     (_restart_count self) (_max_restarts self) (_use_external_host self).

Definition set_restart_count (n : Z) (self : t) : t :=
  mk (process self) (client self) (health_check_task self) (_is_healthy self)
     n (_max_restarts self) (_use_external_host self).

(** [__init__] (lines 41-49); [bool(settings.assetripper_host)] is false
    for [None] and for the empty string. *)
Definition __init__ (settings : Settings) : t :=
  mk None None None false 0 5
     (match assetripper_host settings with
      | Some h => if decide (h = "") then false else true
      | None => false
      end).

(** [stop] (lines 100-130) called from outside the health-check task (the
    lifespan of the application).  Cancelling the health-check task, closing
    the client and terminating (or killing) the child change the fields
    below; the calls return.  [HealthCheckTask.stop] is the call made by the
    health-check task itself. *)
Definition stop (self : t) : t :=
  set_is_healthy false
    (set_process None
       (set_client None
          (set_health_check_task
             (match health_check_task self with
              | Some _ => Some Cancelled
              | None => None
              end) self))).

(** [is_healthy] (lines 132-139). *)
Definition is_healthy (self : t) : bool := _is_healthy self.

(** [load_file] (lines 141-171). *)
Definition load_file (self : t) (file_path : string) (reply : HttpReply)
  : Result unit :=
  match client self with
  | None => Raise (mkExn AssetRipperConnectionError "AssetRipper client not initialized")
  | Some _ =>
      match reply with
      | Response status_code detail =>
          if is_success status_code then Ok tt
          else Raise (mkExn AssetRipperError
                        ("LoadFile failed with status " +:+ pretty status_code
                         +:+ ": " +:+ detail))
      | TimeoutException detail =>
          Raise (mkExn AssetRipperError ("LoadFile timeout: " +:+ detail))
      | RequestError detail =>
          Raise (mkExn AssetRipperConnectionError
                   ("LoadFile request failed: " +:+ detail))
      | OtherError detail => Raise (mkExn RuntimeError detail)
      end
  end.

(** [export_primary_content] (lines 173-208), once the directory of line 192
    is made; [WithFaults.export_primary_content] has the [mkdir] that
    raises. *)
Definition export_primary_content (self : t) (export_path : string)
    (reply : HttpReply) : Result unit :=
  match client self with
  | None => Raise (mkExn AssetRipperConnectionError "AssetRipper client not initialized")
  | Some _ =>
      match reply with
      | Response status_code detail =>
          if is_success status_code then Ok tt
          else Raise (mkExn AssetRipperError
                        ("Export failed with status " +:+ pretty status_code
                         +:+ ": " +:+ detail))
      | TimeoutException detail =>
          Raise (mkExn AssetRipperError ("Export timeout: " +:+ detail))
      | RequestError detail =>
          Raise (mkExn AssetRipperConnectionError
                   ("Export request failed: " +:+ detail))
      | OtherError detail => Raise (mkExn RuntimeError detail)
      end
  end.

(** [reset] (lines 210-222); a normal return carries the records logged. *)
Definition reset (self : t) (reply : HttpReply) : Result (list LogRecord) :=
  match client self with
  | None => Raise (mkExn AssetRipperConnectionError "AssetRipper client not initialized")
  | Some _ =>
      let failed detail :=
        [(INFO, "Resetting AssetRipper...");
         (WARNING, "Failed to reset AssetRipper: " +:+ detail)] in
      match reply with
      | Response status_code detail =>
          if is_success status_code
          then Ok [(INFO, "Resetting AssetRipper...");
                   (INFO, "AssetRipper reset successfully")]
          else Ok (failed detail)
      | TimeoutException detail | RequestError detail | OtherError detail =>
          Ok (failed detail)
      end
  end.

(** The test of line 238 (and, negated, of lines 270-271 once a handle is
    known to exist): the child is ours and has exited. *)
Definition child_exited (self : t) (returncode : option Z) : option Z :=
  if _use_external_host self then None
  else match process self with
       | Some _ => returncode
       | None => None
       end.

(** [_wait_for_ready] (lines 224-259). *)
Fixpoint _wait_for_ready (settings : Settings) (self : t) (polls : list Poll)
    (final_returncode : option Z) : t * Outcome :=
  match polls with
  | [] =>
      match child_exited self final_returncode with
      | Some code =>
          (self, Raised (mkExn AssetRipperProcessError
                           ("AssetRipper process died with code " +:+ pretty code)))
      | None =>
          (self, Raised (mkExn AssetRipperProcessError
                           ("AssetRipper did not become ready within "
                            +:+ pretty (assetripper_startup_timeout settings)
                            +:+ " seconds")))
      end
  | p :: rest =>
      match child_exited self (poll_returncode p) with
      | Some code =>
          (self, Raised (mkExn AssetRipperProcessError
                           ("AssetRipper process died with code " +:+ pretty code)))
      | None =>
          match poll_reply p with
          | Response status_code _ =>
              if decide (status_code = 200)
              then (set_is_healthy true self, Returned)
              else _wait_for_ready settings self rest final_returncode
          | TimeoutException _ | RequestError _ =>
              _wait_for_ready settings self rest final_returncode
          | OtherError detail => (self, Raised (mkExn RuntimeError detail))
          end
      end
  end.

(** [start] (lines 51-98). *)
Definition start (settings : Settings) (env : StartEnv) (self : t) : t * Outcome :=
  let spawned :=
    if _use_external_host self then (self, Returned)
    else match spawn env with
         | Ok p => (set_process (Some p) self, Returned)
         | Raise e =>
             (self, Raised (mkExn AssetRipperProcessError
                              ("Failed to start AssetRipper: " +:+ exn_str e)))
         end in
  match spawned with
  | (self1, Raised e) => (self1, Raised e)
  | (self1, Returned) =>
      let self2 := set_client (Some (assetripper_base_url settings)) self1 in
      match _wait_for_ready settings self2 (polls env) (final_returncode env) with
      | (self3, Raised e) => (self3, Raised e)
      | (self3, Returned) => (set_health_check_task (Some Scheduled) self3, Returned)
      end
  end.

(** [_attempt_restart] (lines 296-312) when its [stop] returns: the state it
    leaves and the calls it made.  [HealthCheckTask._attempt_restart] follows
    the task that makes the call, for which [stop] can raise. *)
Definition _attempt_restart (settings : Settings) (env : StartEnv) (self : t)
  : t * list SupervisorCall :=
  if decide (_max_restarts self <= _restart_count self) then (self, [])
  else
    let self1 := set_restart_count (_restart_count self + 1) self in
    let self2 := stop self1 in
    let delay := 2 ^ _restart_count self2 in
    match start settings env self2 with
    | (self3, Returned) =>
        (set_restart_count 0 self3, [CallStop; CallSleep delay; CallStart])
    | (self3, Raised _) =>
        (self3, [CallStop; CallSleep delay; CallStart])
    end.

(** One pass of the body of [_health_check_loop] (lines 266-294), after the
    sleep.  With no client the probe raises an [AttributeError], which like
    any exception that is not an [httpx.RequestError] goes to the handler of
    line 293: it is logged and nothing is assigned. *)
Definition health_check (settings : Settings) (env : CheckEnv) (self : t)
  : t * list SupervisorCall :=
  if negb (_use_external_host self)
     && (match process self with
         | None => true
         | Some _ => bool_decide (observed_returncode env ≠ None)
         end)
  then _attempt_restart settings (restart_env env) (set_is_healthy false self)
  else
    match client self with
    | None => (self, [])
    | Some _ =>
        match probe env with
        | Response status_code _ =>
            if decide (status_code = 200)
            then (set_is_healthy true self, [])
            else (set_is_healthy false self, [])
        | TimeoutException _ | RequestError _ =>
            if negb (_use_external_host self)
            then _attempt_restart settings (restart_env env) (set_is_healthy false self)
            else (set_is_healthy false self, [])
        | OtherError _ => (self, [])
        end
    end.

(** [_health_check_loop]: the passes made while it is not cancelled, one per
    environment, each restart with [stop] returning.
    [HealthCheckTask._health_check_loop] is the loop as one task runs it. *)
Fixpoint _health_check_loop (settings : Settings) (envs : list CheckEnv) (self : t)
  : t * list SupervisorCall :=
  match envs with
  | [] => (self, [])
  | env :: rest =>
      let '(self1, calls1) := health_check settings env self in
      let '(self2, calls2) := _health_check_loop settings rest self1 in
      (self2, calls1 ++ calls2)
  end.

End AssetRipperManager.

(** * app/core/task_queue.py: TaskQueueManager *)

(** What one run of [_process_task] meets.  The supervisor is the global
    [assetripper_manager]; the health-check loop may restart the worker
    between two steps of a run, so each of the three calls reads the
    supervisor as it is then. *)
Record PipelineEnv := mkPipelineEnv {
  utcnow_started : datetime;                (* line 156 *)
  cwd : string;
  fs_before : string -> option Node;        (* the files when line 164 looks *)
  manager_at_load : AssetRipperManager.t;
  load_reply : HttpReply;
  manager_at_export : AssetRipperManager.t;
  export_reply : HttpReply;
  fs_after : string -> option Node;         (* the files when line 177 looks *)
  manager_at_reset : AssetRipperManager.t;
  reset_reply : HttpReply;
  utcnow_finished : datetime;               (* line 201, or 239 from 213/223 *)
  utcnow_worker : datetime                  (* line 239 from line 120 *)
}.

(** The dispatch log: [Begin id] when the worker loop takes [id] off the
    queue and is about to call [_process_task] (lines 112-113), [Finish id] when
    the [finally] of line 121 runs. *)
Inductive DispatchEvent :=
| Begin (task_id : string)
| Finish (task_id : string).

(** Where a cancellation (from [stop]) finds a run of [_process_task]: before
    the commit of line 157, after it and before the write that ends the run,
    or after that write (in the [reset] that follows line 213, say). *)
Inductive Progress :=
| BeforeCommit
| InFlight (utcnow_started : datetime)
| AfterWrite (env : PipelineEnv).

Module TaskQueueManager.

Record t := mk {
  queue : list string;                  (* asyncio.Queue(), head first *)
  worker_task : option TaskHandle;
  current_task_id : option string;
  _running : bool
}.

(** [__init__] (lines 36-41). *)
Definition __init__ : t := mk [] None None false.

(** [add_task] (lines 72-80): [put] on a queue without a size limit. *)
Definition add_task (task_id : string) (self : t) : t :=
  mk (queue self ++ [task_id]) (worker_task self) (current_task_id self)
     (_running self).

(** [get_queue_size] and [get_current_task_id] (lines 82-98). *)
Definition get_queue_size (self : t) : Z := Z.of_nat (length (queue self)).


(** [_mark_task_failed] (lines 225-245):
    [update(Task).where(Task.id == task_id).values(...)]; the row with that
    key, when there is one, gets the three values.  [now] is the reading of
    [datetime.utcnow()] on line 239. *)
Definition _mark_task_failed (task_id : string) (error_message : string)
    (now : datetime) (db : Store) : Store :=
  alter (set_failed now error_message) task_id db.

(** The message of line 265. *)
Definition recovery_message : string := "Interrupted by container restart".

(** [_recover_interrupted_tasks] (lines 247-268).  [utcnow id] is the reading
    of [datetime.utcnow()] on line 264 when the loop is at row [id]. *)
Definition _recover_interrupted_tasks (utcnow : string -> datetime)
    (db : Store) : Store :=
  map_imap
    (fun id task =>
       Some (if decide (status task = TaskStatus.PROCESSING)
             then set_failed (utcnow id) recovery_message task
             else task))
    db.

(** Lines 162-182 of [_process_task]: the steps up to the export size, with
    the records logged on the way. *)
Definition load_and_export (settings : Settings) (task_id : string)
    (task : Task) (env : PipelineEnv) : list LogRecord * Result (string * Z) :=
  let upload_path := upload_path task in
  match fs_before env upload_path with
  | None =>
      ([], Raise (mkExn FileNotFoundError
                    ("Upload file not found: " +:+ upload_path)))
  | Some _ =>
      let log1 := [(INFO, "Task " +:+ task_id
                          +:+ ": Loading file into AssetRipper: " +:+ upload_path)] in
      match AssetRipperManager.load_file (manager_at_load env)
              (absolute (cwd env) upload_path) (load_reply env) with
      | Raise e => (log1, Raise e)
      | Ok _ =>
          let export_dir := get_task_export_dir settings task_id in
          let log2 := log1 ++ [(INFO, "Task " +:+ task_id
                                      +:+ ": Exporting to: " +:+ export_dir)] in
          match AssetRipperManager.export_primary_content (manager_at_export env)
                  (absolute (cwd env) export_dir) (export_reply env) with
          | Raise e => (log2, Raise e)
          | Ok _ =>
              let assets_dir := get_task_assets_dir settings task_id in
              match fs_after env assets_dir with
              | None =>
                  (log2, Raise (mkExn FileNotFoundError
                                  ("Assets directory not found after export: "
                                   +:+ assets_dir)))
              | Some node =>
                  let export_size := get_directory_size node in
                  (log2 ++ [(INFO, "Task " +:+ task_id +:+ ": Export size: "
                                   +:+ pretty export_size +:+ " bytes")],
                   Ok (assets_dir, export_size))
              end
          end
      end
  end.

(** [_process_task] (lines 134-223) when the calls on the store return: the
    store it leaves, the records it logged and how it ended.
    [WithFaults._process_task] has the calls that raise. *)
Definition _process_task (settings : Settings) (task_id : string)
    (env : PipelineEnv) (db : Store) : Store * list LogRecord * Outcome :=
  match db !! task_id with
  | None =>
      (db, [(ERROR, "Task " +:+ task_id +:+ " not found in database")], Returned)
  | Some task =>
      if decide (status task ≠ TaskStatus.PENDING) then
        (db, [(WARNING, "Task " +:+ task_id +:+ " is not PENDING (status: "
                        +:+ status task +:+ "), skipping")], Returned)
      else
        let db1 := <[task_id := set_processing (utcnow_started env) task]> db in
        let log0 := [(INFO, "Task " +:+ task_id +:+ " started processing")] in
        match load_and_export settings task_id task env with
        | (log1, Ok (assets_dir, export_size)) =>
            let log_reset :=
              match AssetRipperManager.reset (manager_at_reset env) (reset_reply env) with
              | Ok records => records
              | Raise e =>
                  [(WARNING, "Failed to reset AssetRipper after task " +:+ task_id
                             +:+ ": " +:+ exn_str e)]
              end in
            (alter (set_completed (utcnow_finished env) assets_dir export_size)
                   task_id db1,
             log0 ++ log1 ++ log_reset
             ++ [(INFO, "Task " +:+ task_id +:+ " completed successfully")],
             Returned)
        | (log1, Raise e) =>
            if is_AssetRipperError (exn_class e) then
              let log_reset :=
                match AssetRipperManager.reset (manager_at_reset env) (reset_reply env) with
                | Ok records => records
                | Raise reset_error =>
                    [(ERROR, "Failed to reset AssetRipper: " +:+ exn_str reset_error)]
                end in
              (_mark_task_failed task_id ("AssetRipper error: " +:+ exn_str e)
                 (utcnow_finished env) db1,
               log0 ++ log1
               ++ [(ERROR, "Task " +:+ task_id
                           +:+ " failed due to AssetRipper error: " +:+ exn_str e);
                   (INFO, "Task " +:+ task_id +:+ " marked as FAILED")]
               ++ log_reset,
               Returned)
            else
              (_mark_task_failed task_id ("Unexpected error: " +:+ exn_str e)
                 (utcnow_finished env) db1,
               log0 ++ log1
               ++ [(ERROR, "Task " +:+ task_id
                           +:+ " failed with unexpected error: " +:+ exn_str e);
                   (INFO, "Task " +:+ task_id +:+ " marked as FAILED")],
               Returned)
        end
  end.

(** The manager with the store it writes and the dispatch log. *)
Record World := mkWorld {
  manager : t;
  tasks : Store;
  dispatched : list DispatchEvent
}.

(** A service that has just come up over store [db]. *)
Definition boot (db : Store) : World := mkWorld __init__ db [].

(** [start] (lines 43-54). *)
Definition start (utcnow : string -> datetime) (w : World) : World :=
  let self := manager w in
  if _running self then w
  else
    mkWorld (mk (queue self) (Some Scheduled) (current_task_id self) true)
            (_recover_interrupted_tasks utcnow (tasks w))
            (dispatched w).

(** [add_task], on the world. *)
Definition enqueue (task_id : string) (w : World) : World :=
  mkWorld (add_task task_id (manager w)) (tasks w) (dispatched w).

(** Lines 104-113 of [_worker]: the loop test, the [get] with its timeout,
    and the assignment of [current_task_id].  The loop is at this point only
    when it runs and is not inside a pass. *)
Definition worker_get (w : World) : World :=
  let self := manager w in
  if _running self
     && bool_decide (worker_task self = Some Scheduled)
     && bool_decide (current_task_id self = None)
  then
    match queue self with
    | [] => w
    | task_id :: rest =>
        mkWorld (mk rest (worker_task self) (Some task_id) (_running self))
                (tasks w)
                (dispatched w ++ [Begin task_id])
    end
  else w.

(** Lines 115-123 of [_worker]: the call of [_process_task], the handler of
    line 118 and the [finally]. *)
Definition worker_process (settings : Settings) (env : PipelineEnv) (w : World)
  : World :=
  let self := manager w in
  match current_task_id self with
  | None => w
  | Some task_id =>
      let '(db1, _, outcome) := _process_task settings task_id env (tasks w) in
      let db2 :=
        match outcome with
        | Returned => db1
        | Raised e => _mark_task_failed task_id (exn_str e) (utcnow_worker env) db1
        end in
      mkWorld (mk (queue self) (worker_task self) None (_running self))
              db2
              (dispatched w ++ [Finish task_id])
  end.

(** What a run of [_process_task] that is cancelled at [p] has written. *)
Definition cancelled_run (settings : Settings) (task_id : string) (p : Progress)
    (db : Store) : Store :=
  match p with
  | BeforeCommit => db
  | InFlight now =>
      match db !! task_id with
      | Some task =>
          if decide (status task ≠ TaskStatus.PENDING) then db
          else <[task_id := set_processing now task]> db
      | None => db
      end
  | AfterWrite env => (_process_task settings task_id env db).1.1
  end.

(** [stop] (lines 56-70).  The [CancelledError] reaches the worker at the
    [get] or inside [_process_task]; no handler of [_process_task] catches
    it, the [finally] of line 121 runs and the loop ends at line 125. *)
Definition stop (settings : Settings) (p : Progress) (w : World) : World :=
  let self := manager w in
  if negb (_running self) then w
  else
    let handle :=
      match worker_task self with
      | Some _ => Some Cancelled
      | None => None
      end in
    match current_task_id self with
    | None => mkWorld (mk (queue self) handle None false) (tasks w) (dispatched w)
    | Some task_id =>
        mkWorld (mk (queue self) handle None false)
                (cancelled_run settings task_id p (tasks w))
                (dispatched w ++ [Finish task_id])
    end.

End TaskQueueManager.

(** ** Runs of the queue manager

    What can happen to a [World], one operation at a time. *)
Inductive Op :=
| OpAddTask (task_id : string)
| OpStart (utcnow : string -> datetime)
| OpStop (p : Progress)
| OpWorkerGet
| OpWorkerProcess (env : PipelineEnv).

Definition step (settings : Settings) (w : TaskQueueManager.World) (op : Op)
  : TaskQueueManager.World :=
  match op with
  | OpAddTask task_id => TaskQueueManager.enqueue task_id w
  | OpStart utcnow => TaskQueueManager.start utcnow w
  | OpStop p => TaskQueueManager.stop settings p w
  | OpWorkerGet => TaskQueueManager.worker_get w
  | OpWorkerProcess env => TaskQueueManager.worker_process settings env w
  end.

Definition run (settings : Settings) (ops : list Op) (w : TaskQueueManager.World)
  : TaskQueueManager.World :=
  fold_left (step settings) ops w.

(** The identifiers handed to [add_task] during a run, in order. *)
Definition enqueued (ops : list Op) : list string :=
  omap (fun op => match op with OpAddTask task_id => Some task_id | _ => None end) ops.

(** The log of the tasks of [ids] processed one after the other. *)
Definition in_turn (ids : list string) : list DispatchEvent :=
  flat_map (fun task_id => [Begin task_id; Finish task_id]) ids.

(** ** The sum the specification names

    The sizes of the regular files at and below a node, and below a
    directory; written by structural recursion on the tree, to be compared
    with [get_directory_size]. *)
Fixpoint bytes_at (n : Node) : Z :=
  match n with
  | File sz => sz
  | Dir entries =>
      (fix total (es : list (string * Node)) : Z :=
         match es with
         | [] => 0
         | (_, child) :: es' => bytes_at child + total es'
         end) entries
  | Other => 0
  end.

Definition bytes_under (directory : Node) : Z :=
  match directory with
  | Dir _ => bytes_at directory
  | File _ | Other => 0
  end.

Import TaskQueueManager.

(** ** Notions used in the statements *)

(** Two rows agree on every column the failure write leaves alone. *)
Definition same_but_failure_columns (task task' : Task) : Prop :=
  created_at task' = created_at task
  ∧ started_at task' = started_at task
  ∧ original_filename task' = original_filename task
  ∧ upload_path task' = upload_path task
  ∧ file_size_bytes task' = file_size_bytes task
  ∧ file_hash task' = file_hash task
  ∧ export_path task' = export_path task
  ∧ export_size_bytes task' = export_size_bytes task
  ∧ retry_count task' = retry_count task
  ∧ user_ip task' = user_ip task.

(** Induction on a tree with the hypothesis available for every entry of a
    directory. *)
Fixpoint Node_rect_entries (P : Node → Prop)
    (Hfile : ∀ sz, P (File sz))
    (Hdir : ∀ entries, Forall (λ e, P e.2) entries → P (Dir entries))
    (Hother : P Other) (n : Node) : P n :=
  match n with
  | File sz => Hfile sz
  | Dir entries =>
      Hdir entries
        ((fix all (es : list (string * Node)) : Forall (λ e, P e.2) es :=
            match es with
            | [] => List.Forall_nil _
            | e :: es' =>
                List.Forall_cons _ e es'
                  (Node_rect_entries P Hfile Hdir Hother e.2) (all es')
            end) entries)
  | Other => Hother
  end.

(** The environment with another supervisor state and worker answer at the
    [reset] step. *)
Definition with_reset (m : AssetRipperManager.t) (r : HttpReply)
    (env : PipelineEnv) : PipelineEnv :=
  mkPipelineEnv (utcnow_started env) (cwd env) (fs_before env)
    (manager_at_load env) (load_reply env)
    (manager_at_export env) (export_reply env)
    (fs_after env) m r (utcnow_finished env) (utcnow_worker env).

(** Whether a reply makes the [try] body of [reset] raise. *)
Definition reset_failure (reply : HttpReply) : option string :=
  match reply with
  | Response status_code detail =>
      if decide (200 ≤ status_code ≤ 299) then None else Some detail
  | TimeoutException detail | RequestError detail | OtherError detail => Some detail
  end.

(** A pass of the health check on a self-managed worker that calls
    [_attempt_restart]: the child has exited, or the probe timed out or
    failed in the HTTP layer. *)
Definition restart_triggering (env : CheckEnv) : bool :=
  bool_decide (observed_returncode env ≠ None)
  || match probe env with
     | TimeoutException _ | RequestError _ => true
     | Response _ _ | OtherError _ => false
     end.

(** The restart of a pass fails: [start] raises on a self-managed
    supervisor. *)
Definition restart_fails (settings : Settings) (env : CheckEnv) : Prop :=
  ∀ s, AssetRipperManager._use_external_host s = false →
       (AssetRipperManager.start settings (restart_env env) s).2 ≠ Returned.

(** The delays slept in a list of calls, in order. *)
Definition restart_delays (calls : list SupervisorCall) : list Z :=
  omap (λ c, match c with CallSleep seconds => Some seconds | _ => None end) calls.

(** What the log shows of the pass under way, if there is one. *)
Definition open_pass (current : option string) : list DispatchEvent :=
  match current with
  | Some task_id => [Begin task_id]
  | None => []
  end.

(** The dispatch log of a world agrees with a history of enqueues: the
    identifiers handed in are those processed to the end, then the one being
    processed if any, then the queue; and the log shows the former processed
    in turn, followed by the open pass. *)
Definition log_agrees (history : list string) (w : World) : Prop :=
  ∃ finished : list string,
    history = finished ++ option_list (current_task_id (manager w)) ++ queue (manager w)
    ∧ dispatched w = in_turn finished ++ open_pass (current_task_id (manager w)).

(** A row in a terminal state. *)
Definition terminal (task : Task) : Prop :=
  status task = TaskStatus.COMPLETED ∨ status task = TaskStatus.FAILED.

(** ** Sample data for the worked instances *)

Definition sample_settings : Settings :=
  mkSettings None 8765 30 "/app/data/uploads" "/app/data/exports".

Definition sample_task (st : string) : Task :=
  mkTask st 100 (Some 110) None "game.apk" "/app/data/uploads/t1/game.apk"
         4096 (Some "ab12") None None (Some "stale message") 0 (Some "10.0.0.7").

Definition sample_store : Store :=
  <["t1" := sample_task TaskStatus.PROCESSING]>
    (<["t2" := sample_task TaskStatus.PENDING]>
       (<["t3" := sample_task TaskStatus.COMPLETED]> ∅)).

(** A supervisor that has been started, and an environment in which the
    upload is in place, the worker answers 200 to everything, and the export
    left three files of 500, 300 and 400 bytes under the Assets directory. *)
Definition sample_manager : AssetRipperManager.t :=
  AssetRipperManager.mk (Some (mkProcess 4242)) (Some "http://localhost:8765")
    (Some Scheduled) true 0 5 false.

Definition sample_assets : Node :=
  Dir [("a.png", File 500);
       ("Scenes", Dir [("b.unity", File 300); ("c.unity", File 400)]);
       ("link", Other)].

Definition sample_env : PipelineEnv :=
  mkPipelineEnv 200 "/app"
    (λ p, if decide (p = "/app/data/uploads/t1/game.apk") then Some (File 4096) else None)
    sample_manager (Response 200 "")
    sample_manager (Response 200 "")
    (λ p, if decide (p = "/app/data/exports/t2/Assets") then Some sample_assets else None)
    sample_manager (Response 200 "")
    300 301.

(** A restart that cannot spawn the worker. *)
Definition sample_failing_start : StartEnv :=
  mkStartEnv (Raise (mkExn FileNotFoundError "No such file or directory")) [] None.

(** A restart that spawns the worker and finds it ready at the first poll. *)
Definition sample_ready_start : StartEnv :=
  mkStartEnv (Ok (mkProcess 4243)) [mkPoll None (Response 200 "")] None.

(** Six passes that find the child dead and cannot spawn it again. *)
Definition sample_outage : list CheckEnv :=
  replicate 6 (mkCheckEnv (Some 139) (Response 200 "") sample_failing_start).

(** A manager that was started and then stopped. *)
Definition stopped_world : World :=
  stop sample_settings BeforeCommit (start (λ _, 0) (boot sample_store)).

(** A run in which the COMPLETED task t3 is enqueued twice and dequeued, the
    manager is stopped in the middle of a pass and started again. *)
Definition sample_run : list Op :=
  [OpStart (λ _, 150); OpAddTask "t3"; OpAddTask "t2"; OpAddTask "t3";
   OpWorkerGet; OpWorkerProcess sample_env;
   OpWorkerGet; OpWorkerProcess sample_env;
   OpWorkerGet; OpStop (InFlight 400); OpStart (λ _, 500)].

(** * Further notions *)





Definition sample_env_export_timeout : PipelineEnv :=
  mkPipelineEnv 200 "/app" (fs_before sample_env)
    sample_manager (Response 200 "") sample_manager (TimeoutException "ReadTimeout")
    (λ _, None) sample_manager (Response 200 "") 300 301.



(** * app/utils/file_utils.py, continued *)

(** A [pathlib.PurePosixPath]: its root (empty, one slash or two) and the
    parts below the root. *)
Record PurePath := mkPurePath {
  path_root : string;
  path_parts : list string
}.

(** [part.lstrip("/")], with the number of slashes taken off. *)
Fixpoint lstrip_slash (s : string) : nat * string :=
  match s with
  | String c rest =>
      if decide (String c "" = "/")
      then let '(n, stripped) := lstrip_slash rest in (S n, stripped)
      else (0%nat, s)
  | "" => (0%nat, "")
  end.

(** pathlib's [splitroot] for POSIX: exactly two leading slashes are a root
    of their own, any other number of them is the root [/]. *)
Definition splitroot (part : string) : string * string :=
  let '(n, stripped_part) := lstrip_slash part in
  (match n with
   | 0%nat => ""
   | 2%nat => "//"
   | _ => "/"
   end, stripped_part).

(** [s.split("/")]. *)
Fixpoint split_slash (s : string) : list string :=
  match s with
  | "" => [""]
  | String c rest =>
      if decide (String c "" = "/") then "" :: split_slash rest
      else match split_slash rest with
           | x :: xs => String c x :: xs
           | [] => [String c ""]
           end
  end.

(** [PurePosixPath(part)]: empty components and [.] are dropped, [..] is
    kept. *)
Definition parse_path (part : string) : PurePath :=
  let '(root, rel) := splitroot part in
  mkPurePath root
    (List.filter (λ x, negb (bool_decide (x = "" ∨ x = "."))) (split_slash rel)).

(** [p / key]: a [key] with a root replaces [p]. *)
Definition truediv (p : PurePath) (key : string) : PurePath :=
  let q := parse_path key in
  if decide (path_root q = "")
  then mkPurePath (path_root p) (path_parts p ++ path_parts q)
  else q.

(** [str(p)]. *)
Definition path_str (p : PurePath) : string :=
  let s := path_root p +:+ String.concat "/" (path_parts p) in
  if decide (s = "") then "." else s.

(** [get_task_upload_path] (file_utils.py, lines 154-166), as the text
    [upload_file] stores (upload.py, line 77). *)
Definition get_task_upload_path (settings : Settings) (task_id filename : string)
  : string :=
  path_str (truediv (truediv (parse_path (upload_dir settings)) task_id) filename).

(** The loop of [save_upload_file] (file_utils.py, lines 31-35).  [reads] are
    the results of the successive [upload_file.read(8192)], an empty one being
    the end of the stream (as is the end of the list); [written] is what the
    loop has written to the destination so far. *)
Fixpoint copy_chunks (reads : list (list Byte.byte)) (written : list Byte.byte)
    (total_bytes : Z) : list Byte.byte * Z :=
  match reads with
  | [] => (written, total_bytes)
  | chunk :: rest =>
      match chunk with
      | [] => (written, total_bytes)
      | _ :: _ =>
          copy_chunks rest (written ++ chunk) (total_bytes + Z.of_nat (length chunk))
      end
  end.

(** [save_upload_file] (file_utils.py, lines 18-38): the content of the
    destination file and the size returned. *)
Definition save_upload_file (reads : list (list Byte.byte)) : list Byte.byte * Z :=
  copy_chunks reads [] 0.

(** * app/api/v1/endpoints *)

(** What an endpoint answers: a value, or an [HTTPException]. *)
Inductive ApiResult (A : Type) :=
| Success (a : A)
| HTTPException (status_code : Z) (detail : string).
Arguments Success {A} a.
Arguments HTTPException {A} status_code detail.

(** [TaskUploadResponse] (schemas.py, lines 49-55). *)
Record TaskUploadResponse := mkTaskUploadResponse {
  response_task_id : string;
  response_status : string;
  response_message : string;
  response_created_at : datetime
}.

(** What one call of the upload endpoint meets. *)
Record UploadEnv := mkUploadEnv {
  upload_filename : option string;        (* [file.filename] *)
  uuid4 : string;                         (* [str(uuid.uuid4())], line 55 *)
  upload_reads : list (list Byte.byte);   (* the chunks of the body *)
  upload_io_error : option string;        (* an exception of lines 58-65 *)
  sha256_hex : string;                    (* [calculate_file_hash], line 65 *)
  client_host : option string;            (* line 68 *)
  utcnow_created : datetime;              (* line 74 *)
  integrity_error : string                (* text of the error of a commit
                                             that finds the key taken *)
}.

(** [upload_file] (upload.py, lines 26-104).  A primary key that is taken
    makes the commit of line 83 raise, which the handler of line 97 turns into
    a 500 like any other exception of the [try] block. *)
Definition upload_file (settings : Settings) (env : UploadEnv) (w : World)
  : World * ApiResult TaskUploadResponse :=
  match upload_filename env with
  | None => (w, HTTPException 400 "No filename provided")
  | Some filename =>
      if decide (filename = "") then (w, HTTPException 400 "No filename provided")
      else
        let task_id := uuid4 env in
        match upload_io_error env with
        | Some e => (w, HTTPException 500 ("Failed to upload file: " +:+ e))
        | None =>
            let upload_path := get_task_upload_path settings task_id filename in
            let file_size := (save_upload_file (upload_reads env)).2 in
            match tasks w !! task_id with
            | Some _ =>
                (w, HTTPException 500
                      ("Failed to upload file: " +:+ integrity_error env))
            | None =>
                let task :=
                  mkTask TaskStatus.PENDING (utcnow_created env) None None
                         filename upload_path file_size (Some (sha256_hex env))
                         None None None 0 (client_host env) in
                (mkWorld (add_task task_id (manager w))
                         (<[task_id := task]> (tasks w))
                         (dispatched w),
                 Success (mkTaskUploadResponse task_id TaskStatus.PENDING
                            "File uploaded successfully. Task queued for processing."
                            (utcnow_created env)))
            end
        end
  end.



(** [s.rsplit('.', 1)]: the text before the last dot of [s] when it has a
    dot. *)
Fixpoint before_last_dot (s : string) : option string :=
  match s with
  | EmptyString => None
  | String c rest =>
      match before_last_dot rest with
      | Some stem => Some (String c stem)
      | None => if decide (String c EmptyString = ".") then Some EmptyString else None
      end
  end.

(** [s.rsplit('.', 1)[0]] (tasks.py, line 107). *)
Definition rsplit_dot_head (s : string) : string :=
  default s (before_last_dot s).

(** What one call of the download endpoint meets: the files, the result of
    [tempfile.NamedTemporaryFile] (the name of the file made, line 96) and the
    exception [create_zip_archive] raises, if any (line 101). *)
Record DownloadEnv := mkDownloadEnv {
  download_fs : string -> option Node;
  tempfile_result : Result string;
  zip_error : option Exn
}.

(** [download_assets] (tasks.py, lines 52-121): the path and the name of the
    file sent, or the [HTTPException] raised; an exception of another class
    leaves the endpoint as it is.  When [NamedTemporaryFile] raises,
    [tmp_zip_path] has not been assigned, and the handler, which reads it on
    line 116, raises [UnboundLocalError] before it reaches its own [raise]. *)
Definition download_assets (settings : Settings) (task_id : string)
    (env : DownloadEnv) (db : Store) : Result (ApiResult (string * string)) :=
  match db !! task_id with
  | None => Ok (HTTPException 404 ("Task " +:+ task_id +:+ " not found"))
  | Some task =>
      if decide (status task ≠ TaskStatus.COMPLETED) then
        Ok (HTTPException 400 ("Task " +:+ task_id +:+ " is not completed (status: "
                               +:+ status task +:+ ")"))
      else
        match download_fs env (get_task_assets_dir settings task_id) with
        | None =>
            Ok (HTTPException 410 ("Export files for task " +:+ task_id
                                   +:+ " have been cleaned up"))
        | Some _ =>
            match tempfile_result env with
            | Raise _ =>
                Raise (mkExn UnboundLocalError
                         "cannot access local variable 'tmp_zip_path' where it is not associated with a value")
            | Ok tmp_zip_path =>
                match zip_error env with
                | Some e =>
                    Ok (HTTPException 500
                          ("Failed to create download archive: " +:+ exn_str e))
                | None =>
                    Ok (Success (tmp_zip_path,
                                 rsplit_dot_head (original_filename task)
                                 +:+ "_assets.zip"))
                end
            end
        end
  end.

(** [delete_task] (tasks.py, lines 124-171).  The removal of the files is best
    effort (its exceptions are logged, lines 154-157) and changes nothing
    here; the row is deleted. *)
Definition delete_task (task_id : string) (w : World) : World * ApiResult string :=
  match tasks w !! task_id with
  | None => (w, HTTPException 404 ("Task " +:+ task_id +:+ " not found"))
  | Some _ =>
      (mkWorld (manager w) (delete task_id (tasks w)) (dispatched w),
       Success ("Task " +:+ task_id +:+ " deleted successfully"))
  end.

(** ** Runs of the service

    What the API and the worker do to a [World], one operation at a time. *)
Inductive ServiceOp :=
| SUpload (env : UploadEnv)
| SDelete (task_id : string)
| SStart (utcnow : string -> datetime)
| SStop (p : Progress)
| SWorkerGet
| SWorkerProcess (env : PipelineEnv).

Definition service_step (settings : Settings) (w : World) (op : ServiceOp) : World :=
  match op with
  | SUpload env => (upload_file settings env w).1
  | SDelete task_id => (delete_task task_id w).1
  | SStart utcnow => start utcnow w
  | SStop p => stop settings p w
  | SWorkerGet => worker_get w
  | SWorkerProcess env => worker_process settings env w
  end.

Definition service_run (settings : Settings) (ops : list ServiceOp) (w : World) : World :=
  fold_left (service_step settings) ops w.

(** Whether a run deletes a task. *)
Definition is_delete (op : ServiceOp) : bool :=
  match op with SDelete _ => true | _ => false end.

(** Every identifier that is queued or current has a row. *)
Definition queued_have_rows (w : World) : Prop :=
  ∀ task_id,
    task_id ∈ option_list (current_task_id (manager w)) ++ queue (manager w) →
    is_Some (tasks w !! task_id).

(** * app/core/file_cleanup.py *)

(** [CleanupLog] (models.py, lines 59-76), without the generated key. *)
Record CleanupLog := mkCleanupLog {
  cleaned_at : datetime;
  log_task_id : string;
  log_upload_path : option string;
  log_export_path : option string;
  reason : string
}.

(** What one run of the cleanup job meets: the clock, the retention setting,
    for each task the exception [cleanup_task_files] raises if any, and the
    time its log row is stamped with. *)
Record CleanupEnv := mkCleanupEnv {
  utcnow_cleanup : datetime;                 (* line 81 *)
  file_retention_days : Z;                   (* settings.file_retention_days *)
  removal_error : string -> option string;   (* line 105 *)
  utcnow_logged : string -> datetime         (* default of [cleaned_at] *)
}.

(** [timedelta(days=1)], in microseconds. *)
Definition day : Z := 86400 * 1000000.

(** The tasks line 86-89 selects. *)
Definition old_tasks (env : CleanupEnv) (db : Store) : list (string * Task) :=
  map_to_list
    (filter (λ row : string * Task,
               created_at row.2 < utcnow_cleanup env - file_retention_days env * day)
            db).

(** [_cleanup_old_files] (file_cleanup.py, lines 72-132): the log rows added,
    [cleaned_count] and [failed_count]. *)
Definition _cleanup_old_files (env : CleanupEnv) (db : Store)
  : list CleanupLog * Z * Z :=
  fold_left
    (λ (acc : list CleanupLog * Z * Z) (row : string * Task),
       let '(logs, cleaned_count, failed_count) := acc in
       match removal_error env row.1 with
       | None =>
           (logs ++ [mkCleanupLog (utcnow_logged env row.1) row.1
                       (Some (upload_path row.2)) (export_path row.2)
                       "retention_expired"],
            cleaned_count + 1, failed_count)
       | Some _ => (logs, cleaned_count, failed_count + 1)
       end)
    (old_tasks env db) ([], 0, 0).

(** ** More sample data *)

Definition sample_upload : UploadEnv :=
  mkUploadEnv (Some "level.v2.apk") "t7"
    [[Byte.x50; Byte.x4b]; [Byte.x03]; []; [Byte.x04]] None "9f86" (Some "10.0.0.9")
    600 "UNIQUE constraint failed: tasks.id".


(** The chunks of an upload before the end of the stream. *)
Fixpoint before_eof (reads : list (list Byte.byte)) : list (list Byte.byte) :=
  match reads with
  | [] => []
  | chunk :: rest =>
      match chunk with
      | [] => []
      | _ :: _ => chunk :: before_eof rest
      end
  end.

(** A text without a dot. *)
Definition dotless (s : string) : Prop :=
  ∀ s1 s2, s ≠ s1 +:+ "." +:+ s2.


(** A run with an upload, a pass that is cancelled and a restart. *)
Definition sample_service_run : list ServiceOp :=
  [SStart (λ _, 150); SUpload sample_upload; SWorkerGet; SStop (InFlight 700);
   SStart (λ _, 800); SUpload sample_upload; SWorkerGet; SWorkerProcess sample_env].

Definition sample_download : DownloadEnv :=
  mkDownloadEnv (fs_after sample_env) (Ok "/tmp/tmpab12.zip") None.

(** A run of the cleanup job thirty days of retention after which only the
    sample rows created at 100 are old; the files of t1 cannot be removed. *)
Definition sample_cleanup : CleanupEnv :=
  mkCleanupEnv (30 * day + 101) 30
    (λ id, if decide (id = "t1") then Some "Permission denied" else None)
    (λ _, 30 * day + 102).

(** A pass of [_wait_for_ready] after which the loop sleeps and polls again:
    the child has not exited and the probe got a status other than 200, timed
    out or failed in the HTTP layer. *)
Definition poll_retries (self : AssetRipperManager.t) (p : Poll) : Prop :=
  AssetRipperManager.child_exited self (poll_returncode p) = None
  ∧ match poll_reply p with
    | Response status_code _ => status_code ≠ 200
    | TimeoutException _ | RequestError _ => True
    | OtherError _ => False
    end.

(** A pass of [_wait_for_ready] that finds the worker ready. *)
Definition poll_ready (self : AssetRipperManager.t) (p : Poll) : Prop :=
  AssetRipperManager.child_exited self (poll_returncode p) = None
  ∧ ∃ detail, poll_reply p = Response 200 detail.

(** * The health-check task calling [stop] on itself

    [_attempt_restart] is called by [_health_check_loop], and its [stop]
    cancels and awaits [self.health_check_task] (assetripper.py, lines
    105-110).  Until a restart made by the loop has returned, that attribute
    holds the very task that runs the loop.  In CPython's asyncio a task that
    cancels itself and awaits itself gets the [CancelledError] at that
    [await], which line 109 swallows; the task's blocking flag stays set, so a
    second [await] of itself raises [RuntimeError] at once, which line 109
    does not catch, and the second [cancel()] stays pending until the task's
    next [await], the [sleep] of line 267.  A [start] that returns stores a
    new task in the attribute; awaiting that one after its [cancel()] ends in
    the [CancelledError] line 109 expects. *)

Module HealthCheckTask.

(** What [self.health_check_task] is to the task running the loop: another
    task, or the running task itself, which has or has not awaited itself
    before. *)
Inductive Standing :=
| Replaced
| Own (awaited_itself : bool).

(** [stop] (lines 100-130) called from the loop. *)
Definition stop (standing : Standing) (self : AssetRipperManager.t)
  : Standing * AssetRipperManager.t * Outcome :=
  match AssetRipperManager.health_check_task self, standing with
  | Some _, Own true =>
      (Own true, self, Raised (mkExn RuntimeError "await wasn't used with future"))
  | Some _, Own false => (Own true, AssetRipperManager.stop self, Returned)
  | _, _ => (standing, AssetRipperManager.stop self, Returned)
  end.

(** [_attempt_restart] (lines 296-312) called from the loop: the standing
    and the state it leaves, the calls it made, and whether a cancellation of
    the running task is left pending. *)
Definition _attempt_restart (settings : Settings) (env : StartEnv)
    (standing : Standing) (self : AssetRipperManager.t)
  : Standing * AssetRipperManager.t * list SupervisorCall * bool :=
  if decide (AssetRipperManager._max_restarts self
             <= AssetRipperManager._restart_count self)
  then (standing, self, [], false)
  else
    let self1 :=
      AssetRipperManager.set_restart_count
        (AssetRipperManager._restart_count self + 1) self in
    match stop standing self1 with
    | (standing1, self2, Raised _) => (standing1, self2, [CallStop], true)
    | (standing1, self2, Returned) =>
        let delay := 2 ^ AssetRipperManager._restart_count self2 in
        match AssetRipperManager.start settings env self2 with
        | (self3, Returned) =>
            (Replaced, AssetRipperManager.set_restart_count 0 self3,
             [CallStop; CallSleep delay; CallStart], false)
        | (self3, Raised _) =>
            (standing1, self3, [CallStop; CallSleep delay; CallStart], false)
        end
    end.

(** One pass of the body of the loop (lines 266-294), after the sleep. *)
Definition health_check (settings : Settings) (env : CheckEnv)
    (standing : Standing) (self : AssetRipperManager.t)
  : Standing * AssetRipperManager.t * list SupervisorCall * bool :=
  if negb (AssetRipperManager._use_external_host self)
     && (match AssetRipperManager.process self with
         | None => true
         | Some _ => bool_decide (observed_returncode env ≠ None)
         end)
  then _attempt_restart settings (restart_env env) standing
         (AssetRipperManager.set_is_healthy false self)
  else
    match AssetRipperManager.client self with
    | None => (standing, self, [], false)
    | Some _ =>
        match probe env with
        | Response status_code _ =>
            if decide (status_code = 200)
            then (standing, AssetRipperManager.set_is_healthy true self, [], false)
            else (standing, AssetRipperManager.set_is_healthy false self, [], false)
        | TimeoutException _ | RequestError _ =>
            if negb (AssetRipperManager._use_external_host self)
            then _attempt_restart settings (restart_env env) standing
                   (AssetRipperManager.set_is_healthy false self)
            else (standing, AssetRipperManager.set_is_healthy false self, [], false)
        | OtherError _ => (standing, self, [], false)
        end
    end.

(** [_health_check_loop] (lines 261-294) as one task runs it: a pass per
    environment, until a pass leaves a cancellation pending; then the sleep
    of line 267 raises [CancelledError] and line 292 ends the loop.  The
    result says whether the loop has ended.  A task that a [start] of this
    loop creates runs the same loop on its own, beginning at [Own false]; its
    passes are not among these. *)
Fixpoint _health_check_loop (settings : Settings) (envs : list CheckEnv)
    (standing : Standing) (self : AssetRipperManager.t)
  : AssetRipperManager.t * list SupervisorCall * bool :=
  match envs with
  | [] => (self, [], false)
  | env :: rest =>
      match health_check settings env standing self with
      | (_, self1, calls1, true) => (self1, calls1, true)
      | (standing1, self1, calls1, false) =>
          let '(self2, calls2, ended) :=
            _health_check_loop settings rest standing1 self1 in
          (self2, calls1 ++ calls2, ended)
      end
  end.

End HealthCheckTask.

(** * Calls that raise

    [TaskQueueManager._process_task] above takes the calls on the store, and
    the [mkdir] of [export_primary_content], to return.  Here each of them
    may raise; a fault is the text of the exception. *)

Record Faults := mkFaults {
  select_fault : option string;       (* the session and SELECT, lines 141-144 *)
  commit_fault : option string;       (* the commit of line 157 *)
  mkdir_fault : option string;        (* assetripper.py, line 192 *)
  update_fault : option string;       (* the UPDATE and commit, lines 195-207 *)
  mark_fault : option string;         (* [_mark_task_failed] from line 213 or 223 *)
  worker_mark_fault : option string   (* [_mark_task_failed] from line 120 *)
}.

Definition no_faults : Faults := mkFaults None None None None None None.

Module WithFaults.

(** [export_primary_content] (assetripper.py, lines 173-208).  The [mkdir]
    of line 192 comes after the test of the client and before the [try]: its
    [OSError] leaves the method as it is. *)
Definition export_primary_content (mkdir_fault : option string)
    (self : AssetRipperManager.t) (export_path : string) (reply : HttpReply)
  : Result unit :=
  match AssetRipperManager.client self with
  | None => Raise (mkExn AssetRipperConnectionError "AssetRipper client not initialized")
  | Some _ =>
      match mkdir_fault with
      | Some text => Raise (mkExn OSError text)
      | None => AssetRipperManager.export_primary_content self export_path reply
      end
  end.

(** Lines 162-182 of [_process_task]. *)
Definition load_and_export (faults : Faults) (settings : Settings)
    (task_id : string) (task : Task) (env : PipelineEnv)
  : list LogRecord * Result (string * Z) :=
  let upload_path := upload_path task in
  match fs_before env upload_path with
  | None =>
      ([], Raise (mkExn FileNotFoundError
                    ("Upload file not found: " +:+ upload_path)))
  | Some _ =>
      let log1 := [(INFO, "Task " +:+ task_id
                          +:+ ": Loading file into AssetRipper: " +:+ upload_path)] in
      match AssetRipperManager.load_file (manager_at_load env)
              (absolute (cwd env) upload_path) (load_reply env) with
      | Raise e => (log1, Raise e)
      | Ok _ =>
          let export_dir := get_task_export_dir settings task_id in
          let log2 := log1 ++ [(INFO, "Task " +:+ task_id
                                      +:+ ": Exporting to: " +:+ export_dir)] in
          match export_primary_content (mkdir_fault faults) (manager_at_export env)
                  (absolute (cwd env) export_dir) (export_reply env) with
          | Raise e => (log2, Raise e)
          | Ok _ =>
              let assets_dir := get_task_assets_dir settings task_id in
              match fs_after env assets_dir with
              | None =>
                  (log2, Raise (mkExn FileNotFoundError
                                  ("Assets directory not found after export: "
                                   +:+ assets_dir)))
              | Some node =>
                  let export_size := get_directory_size node in
                  (log2 ++ [(INFO, "Task " +:+ task_id +:+ ": Export size: "
                                   +:+ pretty export_size +:+ " bytes")],
                   Ok (assets_dir, export_size))
              end
          end
      end
  end.

(** The handler of line 221, with the records logged before it in [log]:
    [db1] is the store its [_mark_task_failed] finds. *)
Definition unexpected_error (faults : Faults) (task_id : string)
    (env : PipelineEnv) (db1 : Store) (log : list LogRecord) (e : Exn)
  : Store * list LogRecord * Outcome :=
  let log' := log ++ [(ERROR, "Task " +:+ task_id
                              +:+ " failed with unexpected error: " +:+ exn_str e)] in
  match mark_fault faults with
  | Some text => (db1, log', Raised (mkExn SQLAlchemyError text))
  | None =>
      (_mark_task_failed task_id ("Unexpected error: " +:+ exn_str e)
         (utcnow_finished env) db1,
       log' ++ [(INFO, "Task " +:+ task_id +:+ " marked as FAILED")],
       Returned)
  end.

(** [_process_task] (task_queue.py, lines 134-223).  The session, the SELECT
    and the commit of lines 141-157 are outside the [try]; the UPDATE of lines
    195-207 is inside it; the [_mark_task_failed] of a handler is inside no
    [try] of this method.  A commit that raises leaves the store as it was. *)
Definition _process_task (faults : Faults) (settings : Settings)
    (task_id : string) (env : PipelineEnv) (db : Store)
  : Store * list LogRecord * Outcome :=
  match select_fault faults with
  | Some text => (db, [], Raised (mkExn SQLAlchemyError text))
  | None =>
      match db !! task_id with
      | None =>
          (db, [(ERROR, "Task " +:+ task_id +:+ " not found in database")], Returned)
      | Some task =>
          if decide (status task ≠ TaskStatus.PENDING) then
            (db, [(WARNING, "Task " +:+ task_id +:+ " is not PENDING (status: "
                            +:+ status task +:+ "), skipping")], Returned)
          else
            match commit_fault faults with
            | Some text => (db, [], Raised (mkExn SQLAlchemyError text))
            | None =>
                let db1 := <[task_id := set_processing (utcnow_started env) task]> db in
                let log0 := [(INFO, "Task " +:+ task_id +:+ " started processing")] in
                match load_and_export faults settings task_id task env with
                | (log1, Ok (assets_dir, export_size)) =>
                    let log_reset :=
                      match AssetRipperManager.reset (manager_at_reset env)
                              (reset_reply env) with
                      | Ok records => records
                      | Raise e =>
                          [(WARNING, "Failed to reset AssetRipper after task "
                                     +:+ task_id +:+ ": " +:+ exn_str e)]
                      end in
                    match update_fault faults with
                    | Some text =>
                        unexpected_error faults task_id env db1
                          (log0 ++ log1 ++ log_reset) (mkExn SQLAlchemyError text)
                    | None =>
                        (alter (set_completed (utcnow_finished env) assets_dir export_size)
                               task_id db1,
                         log0 ++ log1 ++ log_reset
                         ++ [(INFO, "Task " +:+ task_id +:+ " completed successfully")],
                         Returned)
                    end
                | (log1, Raise e) =>
                    if is_AssetRipperError (exn_class e) then
                      let log' :=
                        log0 ++ log1
                        ++ [(ERROR, "Task " +:+ task_id
                                    +:+ " failed due to AssetRipper error: "
                                    +:+ exn_str e)] in
                      match mark_fault faults with
                      | Some text => (db1, log', Raised (mkExn SQLAlchemyError text))
                      | None =>
                          let log_reset :=
                            match AssetRipperManager.reset (manager_at_reset env)
                                    (reset_reply env) with
                            | Ok records => records
                            | Raise reset_error =>
                                [(ERROR, "Failed to reset AssetRipper: "
                                         +:+ exn_str reset_error)]
                            end in
                          (_mark_task_failed task_id ("AssetRipper error: " +:+ exn_str e)
                             (utcnow_finished env) db1,
                           log' ++ [(INFO, "Task " +:+ task_id +:+ " marked as FAILED")]
                           ++ log_reset,
                           Returned)
                      end
                    else unexpected_error faults task_id env db1 (log0 ++ log1) e
                end
            end
      end
  end.

(** Lines 115-123 of [_worker].  The handler of line 118 marks the task it
    was given as failed, whatever its row holds; when that call raises in its
    turn, the [finally] runs and the exception goes to the handler of line
    128. *)
Definition worker_process (faults : Faults) (settings : Settings)
    (env : PipelineEnv) (w : World) : World :=
  let self := manager w in
  match current_task_id self with
  | None => w
  | Some task_id =>
      let '(db1, _, outcome) := _process_task faults settings task_id env (tasks w) in
      let db2 :=
        match outcome with
        | Returned => db1
        | Raised e =>
            match worker_mark_fault faults with
            | Some _ => db1
            | None => _mark_task_failed task_id (exn_str e) (utcnow_worker env) db1
            end
        end in
      mkWorld (mk (queue self) (worker_task self) None (_running self))
              db2
              (dispatched w ++ [Finish task_id])
  end.

(** [start] (lines 43-54) when [_recover_interrupted_tasks] may raise: the
    flag is set and the worker created before it is called, and its one
    commit writes all the rows or none. *)
Definition start (utcnow : string -> datetime) (recover_fault : option string)
    (w : World) : World :=
  match recover_fault with
  | None => TaskQueueManager.start utcnow w
  | Some _ =>
      let self := manager w in
      if _running self then w
      else mkWorld (mk (queue self) (Some Scheduled) (current_task_id self) true)
                   (tasks w) (dispatched w)
  end.

(** [stop] (lines 56-70) when the cancellation reaches the worker after the
    last call on the store of a pass under [faults]. *)
Definition stop_after (faults : Faults) (settings : Settings) (env : PipelineEnv)
    (w : World) : World :=
  let self := manager w in
  if negb (_running self) then w
  else
    let handle :=
      match worker_task self with
      | Some _ => Some Cancelled
      | None => None
      end in
    mkWorld (mk (queue self) handle None false)
            (tasks (worker_process faults settings env w))
            (dispatched (worker_process faults settings env w)).

(** What can happen to a [World] when calls on the store may raise. *)
Inductive Op :=
| OpAddTask (task_id : string)
| OpStart (utcnow : string -> datetime) (recover_fault : option string)
| OpStop (p : Progress)
| OpStopAfter (faults : Faults) (env : PipelineEnv)
| OpWorkerGet
| OpWorkerProcess (faults : Faults) (env : PipelineEnv).

Definition step (settings : Settings) (w : World) (op : Op) : World :=
  match op with
  | OpAddTask task_id => TaskQueueManager.enqueue task_id w
  | OpStart utcnow recover_fault => start utcnow recover_fault w
  | OpStop p => TaskQueueManager.stop settings p w
  | OpStopAfter faults env => stop_after faults settings env w
  | OpWorkerGet => TaskQueueManager.worker_get w
  | OpWorkerProcess faults env => worker_process faults settings env w
  end.

Definition run (settings : Settings) (ops : list Op) (w : World) : World :=
  fold_left (step settings) ops w.

(** The pass of an operation, if it has one, reads the row: its SELECT
    returns. *)
Definition select_returns (op : Op) : Prop :=
  match op with
  | OpStopAfter faults _ | OpWorkerProcess faults _ => select_fault faults = None
  | _ => True
  end.

End WithFaults.

(** A pass whose SELECT finds the database locked, and a run in which the
    COMPLETED task t3 is handed to [add_task] again and meets such a pass. *)
Definition sample_locked : Faults :=
  mkFaults (Some "database is locked") None None None None None.

Definition sample_faulty_run : list WithFaults.Op :=
  [WithFaults.OpStart (λ _, 150) None; WithFaults.OpAddTask "t3";
   WithFaults.OpWorkerGet; WithFaults.OpWorkerProcess sample_locked sample_env].



(** The six passes of [sample_outage] after one that finds the child dead
    and starts it again. *)
Definition sample_relapse : list CheckEnv :=
  mkCheckEnv (Some 139) (Response 200 "") sample_ready_start :: sample_outage.


(** Faults that let every SELECT through and make every write after the
    first commit raise, and a run in which t3 is handed to [add_task] twice
    around t2 and all three passes are made under them. *)
Definition sample_unwritable : Faults :=
  mkFaults None None None (Some "disk I/O error") (Some "disk I/O error")
    (Some "disk I/O error").

Definition sample_guarded_run : list WithFaults.Op :=
  [WithFaults.OpStart (λ _, 150) (Some "database is locked");
   WithFaults.OpAddTask "t3"; WithFaults.OpAddTask "t2"; WithFaults.OpAddTask "t3";
   WithFaults.OpWorkerGet; WithFaults.OpWorkerProcess sample_unwritable sample_env;
   WithFaults.OpWorkerGet; WithFaults.OpWorkerProcess sample_unwritable sample_env;
   WithFaults.OpWorkerGet; WithFaults.OpStopAfter sample_unwritable sample_env].

(** * Theorems *)

(** ** The failure write *)

Lemma set_failed_fields now msg task :
  status (set_failed now msg task) = TaskStatus.FAILED
  ∧ completed_at (set_failed now msg task) = Some now
  ∧ error_message (set_failed now msg task) = Some msg.
Proof. done. Qed.

Lemma set_failed_frame now msg task :
  same_but_failure_columns task (set_failed now msg task).
Proof. by repeat split. Qed.

(** C10.  [_mark_task_failed task_id msg] writes [status], [completed_at] and
    [error_message] of the row [task_id] and nothing else: every other column
    of that row keeps its value, every other row is the row it was, and no
    row appears or disappears. *)
Theorem mark_task_failed_frame (task_id msg : string) (now : datetime) (db : Store) :
  (∀ other : string, other ≠ task_id →
     _mark_task_failed task_id msg now db !! other = db !! other)
  ∧ (∀ task : Task, db !! task_id = Some task →
       ∃ task' : Task,
         _mark_task_failed task_id msg now db !! task_id = Some task'
         ∧ status task' = TaskStatus.FAILED
         ∧ completed_at task' = Some now
         ∧ error_message task' = Some msg
         ∧ same_but_failure_columns task task')
  ∧ (db !! task_id = None → _mark_task_failed task_id msg now db !! task_id = None)
  ∧ dom (_mark_task_failed task_id msg now db) = dom db.
Proof.
  unfold _mark_task_failed. repeat split.
  - intros other Hne. by rewrite lookup_alter_ne.
  - intros task Hrow. exists (set_failed now msg task).
    rewrite lookup_alter_eq, Hrow. split; [done|].
    repeat split.
  - intros Hnone. by rewrite lookup_alter_eq, Hnone.
  - apply dom_alter_L.
Qed.

(** ** Crash recovery *)

Lemma recover_lookup utcnow (db : Store) (id : string) :
  _recover_interrupted_tasks utcnow db !! id =
  (λ task, if decide (status task = TaskStatus.PROCESSING)
           then set_failed (utcnow id) recovery_message task
           else task) <$> db !! id.
Proof.
  unfold _recover_interrupted_tasks. rewrite map_lookup_imap.
  by destruct (db !! id).
Qed.

(** C1.  When [start] is called on a manager that is not running yet (the
    service has just come up), every row that was PROCESSING is FAILED
    afterwards, with [completed_at] the clock reading taken for it during
    recovery and [error_message] the one recovery message, its other columns
    as they were; a row in any other status is the row it was, and no row
    appears. *)
Theorem start_recovers_interrupted (utcnow : string → datetime) (w : World) :
  _running (manager w) = false →
  ∀ (id : string),
    match tasks w !! id with
    | Some task =>
        if decide (status task = TaskStatus.PROCESSING) then
          ∃ task' : Task,
            tasks (start utcnow w) !! id = Some task'
            ∧ status task' = TaskStatus.FAILED
            ∧ completed_at task' = Some (utcnow id)
            ∧ error_message task' = Some recovery_message
            ∧ same_but_failure_columns task task'
        else tasks (start utcnow w) !! id = Some task
    | None => tasks (start utcnow w) !! id = None
    end.
Proof.
  intros Hidle id. unfold start. rewrite Hidle. cbn [tasks].
  rewrite recover_lookup.
  destruct (tasks w !! id) as [task|] eqn:Hrow; cbn; [|done].
  destruct (decide (status task = TaskStatus.PROCESSING)); [|done].
  eexists; split; [done|]. repeat split.
Qed.

Lemma start_recovers_interrupted_witness :
  _running (manager (boot sample_store)) = false
  ∧ (∃ task' : Task,
       tasks (start (λ _, 500) (boot sample_store)) !! "t1" = Some task'
       ∧ status task' = TaskStatus.FAILED
       ∧ completed_at task' = Some 500
       ∧ error_message task' = Some recovery_message
       ∧ same_but_failure_columns (sample_task TaskStatus.PROCESSING) task')
  ∧ tasks (start (λ _, 500) (boot sample_store)) !! "t2"
    = Some (sample_task TaskStatus.PENDING).
Proof.
  split; [reflexivity|]. split.
  - exact (start_recovers_interrupted (λ _, 500) (boot sample_store) eq_refl "t1").
  - exact (start_recovers_interrupted (λ _, 500) (boot sample_store) eq_refl "t2").
Defined.

(** ** [get_directory_size] computes the sum of the file sizes *)

(** The loop body of [get_directory_size], summed over a list of items
    starting from [acc]. *)
Lemma size_loop_acc (items : list Node) (acc : Z) :
  fold_left (λ total_size item,
               if is_file item then total_size + st_size item else total_size)
            items acc
  = acc + fold_left (λ total_size item,
                       if is_file item then total_size + st_size item else total_size)
                    items 0.
Proof.
  revert acc. induction items as [|item items IH]; intros acc; simpl; [lia|].
  rewrite IH. rewrite (IH (if is_file item then 0 + st_size item else 0)).
  destruct (is_file item); lia.
Qed.

Lemma size_loop_app (xs ys : list Node) :
  fold_left (λ total_size item,
               if is_file item then total_size + st_size item else total_size)
            (xs ++ ys) 0
  = fold_left (λ total_size item,
                 if is_file item then total_size + st_size item else total_size)
              xs 0
    + fold_left (λ total_size item,
                   if is_file item then total_size + st_size item else total_size)
                ys 0.
Proof. rewrite fold_left_app. apply size_loop_acc. Qed.

(** What a node adds to the sum as an item of its parent, and what the walk
    below it adds. *)
Lemma bytes_at_split (n : Node) :
  bytes_at n = (if is_file n then st_size n else 0) + get_directory_size n.
Proof.
  induction n as [sz|entries IH|] using Node_rect_entries;
    [unfold get_directory_size; simpl; lia | | done].
  unfold get_directory_size. cbn [rglob is_file]. rewrite size_loop_app.
  cbn [bytes_at].
  induction IH as [|[name child] es Hchild _ IHes]; [done|].
  cbn [map fold_left snd]. rewrite size_loop_acc, size_loop_app.
  cbn [snd] in Hchild. rewrite Hchild. unfold get_directory_size in *.
  destruct (is_file child); lia.
Qed.

Lemma get_directory_size_sum (directory : Node) :
  get_directory_size directory = bytes_under directory.
Proof.
  destruct directory as [sz|entries|]; [done| |done].
  unfold bytes_under. rewrite bytes_at_split. done.
Qed.

(** ** The pipeline on success *)



(** ** The faults of [load_file] *)

(** C5 as stated fails: a failing status is answered with a plain
    [AssetRipperError], not with the process fault, and so is a timeout. *)
Lemma load_file_status_fault_is_generic :
  AssetRipperManager.load_file sample_manager "/app/data/uploads/t1/game.apk"
    (Response 500 "Server error '500 Internal Server Error'")
  = Raise (mkExn AssetRipperError
             "LoadFile failed with status 500: Server error '500 Internal Server Error'")
  ∧ AssetRipperManager.load_file sample_manager "/app/data/uploads/t1/game.apk"
      (TimeoutException "ReadTimeout")
    = Raise (mkExn AssetRipperError "LoadFile timeout: ReadTimeout")
  ∧ AssetRipperError ≠ AssetRipperProcessError.
Proof. by repeat split. Qed.

(** C5, amended.  [load_file] returns normally exactly when the client is
    initialised and the worker answers with a 2xx status.  It raises
    [AssetRipperConnectionError] exactly when the client is missing or the
    request fails in the HTTP layer without timing out; it raises the plain
    [AssetRipperError] exactly when the worker answers with another status
    (the message then carries the status code) or the request times out (the
    message then says so).  It never raises [AssetRipperProcessError], and what
    it raises of these is always an [AssetRipperError] for [isinstance]. *)
Theorem load_file_fault_taxonomy (self : AssetRipperManager.t)
    (file_path : string) (reply : HttpReply) :
  (AssetRipperManager.load_file self file_path reply = Ok tt
   ↔ is_Some (AssetRipperManager.client self)
     ∧ ∃ code detail, reply = Response code detail ∧ 200 ≤ code ≤ 299)
  ∧ (∀ e, AssetRipperManager.load_file self file_path reply = Raise e →
       (exn_class e = AssetRipperConnectionError
        ↔ AssetRipperManager.client self = None ∨ ∃ detail, reply = RequestError detail)
       ∧ (exn_class e = AssetRipperError
          ↔ is_Some (AssetRipperManager.client self)
            ∧ ((∃ code detail, reply = Response code detail
                               ∧ ¬ (200 ≤ code ≤ 299)
                               ∧ exn_str e = "LoadFile failed with status "
                                             +:+ pretty code +:+ ": " +:+ detail)
               ∨ (∃ detail, reply = TimeoutException detail
                            ∧ exn_str e = "LoadFile timeout: " +:+ detail)))
       ∧ exn_class e ≠ AssetRipperProcessError
       ∧ (is_AssetRipperError (exn_class e) = false
          ↔ is_Some (AssetRipperManager.client self) ∧ ∃ detail, reply = OtherError detail)).
Proof.
  unfold AssetRipperManager.load_file.
  destruct (AssetRipperManager.client self) as [c|] eqn:Hclient.
  - destruct reply as [code detail|detail|detail|detail].
    + destruct (is_success code) eqn:Hcode; unfold is_success in Hcode.
      * apply andb_true_iff in Hcode as [?%Z.leb_le ?%Z.leb_le].
        split; [naive_solver|done].
      * assert (¬ (200 ≤ code ≤ 299)) as Hout.
        { intros [?%Z.leb_le ?%Z.leb_le]. by rewrite andb_false_iff in Hcode; destruct Hcode; congruence. }
        split; [naive_solver|]. intros e [= <-]. cbn. naive_solver.
    + split; [naive_solver|]. intros e [= <-]. cbn. naive_solver.
    + split; [naive_solver|]. intros e [= <-]. cbn. naive_solver.
    + split; [naive_solver|]. intros e [= <-]. cbn. naive_solver.
  - split; [split; [done|]; intros [[? ?] _]; done|].
    intros e [= <-]. cbn. split_and!; try done; try naive_solver.
    all: split; [done|intros [[? ?] _]; done].
Qed.

(** ** [reset] *)

(** C9 as stated fails: on a supervisor without a client (after [stop], or
    while a restart is under way) [reset] raises. *)
Lemma reset_raises_without_client :
  AssetRipperManager.client (AssetRipperManager.stop sample_manager) = None
  ∧ AssetRipperManager.reset (AssetRipperManager.stop sample_manager) (Response 200 "")
    = Raise (mkExn AssetRipperConnectionError "AssetRipper client not initialized").
Proof. done. Qed.

(** C9, amended.  [reset] raises exactly when the client is not initialised,
    and then an [AssetRipperConnectionError].  With a client it returns
    whatever the worker answers, and when the request fails the last record
    it logs is the warning with the failure.  Whatever [reset] does, also when
    it raises, [_process_task] returns and writes the same store: a failed
    reset does not abort a task. *)
Theorem reset_raises_only_without_client (self : AssetRipperManager.t)
    (reply : HttpReply) :
  (AssetRipperManager.client self = None →
     AssetRipperManager.reset self reply
     = Raise (mkExn AssetRipperConnectionError "AssetRipper client not initialized"))
  ∧ (is_Some (AssetRipperManager.client self) →
       ∃ records, AssetRipperManager.reset self reply = Ok records
         ∧ ∀ detail, reset_failure reply = Some detail →
             last records = Some (WARNING, "Failed to reset AssetRipper: " +:+ detail))
  ∧ (∀ settings task_id env db,
       (_process_task settings task_id (with_reset self reply env) db).1.1
       = (_process_task settings task_id env db).1.1
       ∧ (_process_task settings task_id (with_reset self reply env) db).2 = Returned).
Proof.
  split_and!.
  - intros Hclient. unfold AssetRipperManager.reset. by rewrite Hclient.
  - intros [c Hclient]. unfold AssetRipperManager.reset. rewrite Hclient.
    destruct reply as [code detail|detail|detail|detail]; cbn;
      try (eexists; split; [done|]; by intros ? [= <-]).
    unfold is_success. destruct (decide _) as [[? ?]|Hout].
    + rewrite (proj2 (andb_true_iff _ _)) by (split; lia).
      eexists; split; [done|]. done.
    + destruct ((200 <=? code) && (code <=? 299)) eqn:Hcode.
      { apply andb_true_iff in Hcode as [?%Z.leb_le ?%Z.leb_le]. lia. }
      eexists; split; [done|]. by intros ? [= <-].
  - intros settings task_id env db.
    unfold _process_task, load_and_export. cbn.
    destruct (db !! task_id) as [task|]; [|done].
    destruct (decide _); [done|].
    destruct (fs_before env (upload_path task)); [|done].
    destruct (AssetRipperManager.load_file _ _ _) as [[]|e1];
      [|by destruct (is_AssetRipperError (exn_class e1))].
    destruct (AssetRipperManager.export_primary_content _ _ _) as [[]|e2];
      [|by destruct (is_AssetRipperError (exn_class e2))].
    by destruct (fs_after env _).
Qed.

(** ** The health check *)

(** C3 as stated fails: with a self-managed worker that answers 503 the flag
    goes to unhealthy and no restart is attempted, although one would have
    been made. *)
Lemma health_check_non_200_no_restart :
  AssetRipperManager._use_external_host sample_manager = false
  ∧ AssetRipperManager.health_check sample_settings
      (mkCheckEnv None (Response 503 "") sample_failing_start) sample_manager
    = (AssetRipperManager.set_is_healthy false sample_manager, [])
  ∧ (AssetRipperManager._attempt_restart sample_settings sample_failing_start
       (AssetRipperManager.set_is_healthy false sample_manager)).2
    = [CallStop; CallSleep 2; CallStart].
Proof. done. Qed.

(** C3, amended.  When a pass of the health check makes its probe (the
    client exists and, in self-managed mode, the child is alive): a request
    that times out or fails in the HTTP layer sets the flag to unhealthy and,
    in self-managed mode, goes on to [_attempt_restart]; a response sets the
    flag to healthy when its status is 200 and to unhealthy otherwise, and
    attempts no restart in either mode.  In external-host mode no pass ever
    makes a supervisor call or changes anything but the flag. *)
Theorem health_check_action_rule (settings : Settings) (env : CheckEnv)
    (self : AssetRipperManager.t) :
  (is_Some (AssetRipperManager.client self) →
   (AssetRipperManager._use_external_host self = true
    ∨ (is_Some (AssetRipperManager.process self) ∧ observed_returncode env = None)) →
   match probe env with
   | TimeoutException _ | RequestError _ =>
       AssetRipperManager.health_check settings env self
       = if AssetRipperManager._use_external_host self
         then (AssetRipperManager.set_is_healthy false self, [])
         else AssetRipperManager._attempt_restart settings (restart_env env)
                (AssetRipperManager.set_is_healthy false self)
   | Response status_code _ =>
       AssetRipperManager.health_check settings env self
       = (AssetRipperManager.set_is_healthy (bool_decide (status_code = 200)) self, [])
   | OtherError _ =>
       AssetRipperManager.health_check settings env self = (self, [])
   end)
  ∧ (AssetRipperManager._use_external_host self = true →
     (AssetRipperManager.health_check settings env self).2 = []
     ∧ ∃ flag, (AssetRipperManager.health_check settings env self).1
               = AssetRipperManager.set_is_healthy flag self).
Proof.
  split.
  - intros [c Hclient] Hprobe. unfold AssetRipperManager.health_check.
    rewrite Hclient.
    assert (negb (AssetRipperManager._use_external_host self)
            && match AssetRipperManager.process self with
               | Some _ => bool_decide (observed_returncode env ≠ None)
               | None => true
               end = false) as ->.
    { destruct Hprobe as [->|[[p ->] Halive]]; [done|].
      rewrite andb_false_iff. right. apply bool_decide_eq_false_2. by intros []. }
    destruct (probe env) as [code ?|?|?|?]; try done.
    + by destruct (decide (code = 200)) as [->|?]; [|rewrite bool_decide_eq_false_2].
    + by destruct (AssetRipperManager._use_external_host self).
    + by destruct (AssetRipperManager._use_external_host self).
  - intros Hext. unfold AssetRipperManager.health_check. rewrite Hext. cbn.
    destruct (AssetRipperManager.client self) eqn:Hclient.
    + destruct (probe env) as [code ?|?|?|?]; cbn;
        try destruct (decide _); split; try done; try (by eexists).
      all: exists (AssetRipperManager._is_healthy self); by destruct self.
    + split; [done|]. exists (AssetRipperManager._is_healthy self); by destruct self.
Qed.

(** ** Restart attempts *)

(** The fields [_wait_for_ready] and [start] leave alone. *)
Lemma wait_for_ready_fields settings self polls final :
  let self' := (AssetRipperManager._wait_for_ready settings self polls final).1 in
  AssetRipperManager.process self' = AssetRipperManager.process self
  ∧ AssetRipperManager.client self' = AssetRipperManager.client self
  ∧ AssetRipperManager._restart_count self' = AssetRipperManager._restart_count self
  ∧ AssetRipperManager._max_restarts self' = AssetRipperManager._max_restarts self
  ∧ AssetRipperManager._use_external_host self' = AssetRipperManager._use_external_host self.
Proof.
  induction polls as [|p polls IH]; cbn.
  - by destruct (AssetRipperManager.child_exited self final).
  - destruct (AssetRipperManager.child_exited self (poll_returncode p)); [done|].
    destruct (poll_reply p) as [code ?|?|?|?]; try done.
    by destruct (decide (code = 200)).
Qed.

Lemma start_fields settings env self :
  let self' := (AssetRipperManager.start settings env self).1 in
  AssetRipperManager._restart_count self' = AssetRipperManager._restart_count self
  ∧ AssetRipperManager._max_restarts self' = AssetRipperManager._max_restarts self
  ∧ AssetRipperManager._use_external_host self' = AssetRipperManager._use_external_host self
  ∧ (AssetRipperManager.process self = None →
     AssetRipperManager.process self' = None ∨ is_Some (AssetRipperManager.client self')).
Proof.
  unfold AssetRipperManager.start.
  destruct (AssetRipperManager._use_external_host self) eqn:Hext.
  - pose proof (wait_for_ready_fields settings
      (AssetRipperManager.set_client (Some (assetripper_base_url settings)) self)
      (polls env) (final_returncode env)) as (Hp & Hc & Hn & Hm & He).
    destruct (AssetRipperManager._wait_for_ready _ _ _ _) as [self3 []];
      cbn in *; rewrite ?Hn, ?Hm, ?He, ?Hp; split_and!; try done; by left.
  - destruct (spawn env) as [p|e]; [|by split_and!; try done; left].
    pose proof (wait_for_ready_fields settings
      (AssetRipperManager.set_client (Some (assetripper_base_url settings))
         (AssetRipperManager.set_process (Some p) self))
      (polls env) (final_returncode env)) as (Hp & Hc & Hn & Hm & He).
    destruct (AssetRipperManager._wait_for_ready _ _ _ _) as [self3 []];
      cbn in *; rewrite ?Hn, ?Hm, ?He, ?Hc; split_and!; try done; by right.
Qed.

(** [start] that raises leaves the health-check task it found. *)
Lemma wait_for_ready_handle settings self polls final :
  AssetRipperManager.health_check_task
    (AssetRipperManager._wait_for_ready settings self polls final).1
  = AssetRipperManager.health_check_task self.
Proof.
  induction polls as [|p polls IH]; cbn.
  - by destruct (AssetRipperManager.child_exited self final).
  - destruct (AssetRipperManager.child_exited self (poll_returncode p)); [done|].
    destruct (poll_reply p) as [code ?|?|?|?]; try done.
    by destruct (decide (code = 200)).
Qed.

Lemma start_raised_handle settings env self :
  (AssetRipperManager.start settings env self).2 ≠ Returned →
  AssetRipperManager.health_check_task (AssetRipperManager.start settings env self).1
  = AssetRipperManager.health_check_task self.
Proof.
  unfold AssetRipperManager.start.
  destruct (AssetRipperManager._use_external_host self).
  - pose proof (wait_for_ready_handle settings
      (AssetRipperManager.set_client (Some (assetripper_base_url settings)) self)
      (polls env) (final_returncode env)) as Hh.
    by destruct (AssetRipperManager._wait_for_ready _ _ _ _) as [self3 []].
  - destruct (spawn env) as [p|e]; [|done].
    pose proof (wait_for_ready_handle settings
      (AssetRipperManager.set_client (Some (assetripper_base_url settings))
         (AssetRipperManager.set_process (Some p) self))
      (polls env) (final_returncode env)) as Hh.
    by destruct (AssetRipperManager._wait_for_ready _ _ _ _) as [self3 []].
Qed.

(** A loop whose task is no longer the one held in the attribute makes the
    attempts of [AssetRipperManager._attempt_restart]: for it [stop]
    returns. *)
Lemma replaced_attempt_agrees settings env self :
  HealthCheckTask._attempt_restart settings env HealthCheckTask.Replaced self
  = (HealthCheckTask.Replaced,
     (AssetRipperManager._attempt_restart settings env self).1,
     (AssetRipperManager._attempt_restart settings env self).2, false).
Proof.
  unfold HealthCheckTask._attempt_restart, AssetRipperManager._attempt_restart,
    HealthCheckTask.stop.
  destruct (decide _); [done|]. cbn.
  destruct (AssetRipperManager.health_check_task self);
    by destruct (AssetRipperManager.start _ _ _) as [self3 []].
Qed.

Lemma replaced_pass_agrees settings env self :
  HealthCheckTask.health_check settings env HealthCheckTask.Replaced self
  = (HealthCheckTask.Replaced,
     (AssetRipperManager.health_check settings env self).1,
     (AssetRipperManager.health_check settings env self).2, false).
Proof.
  unfold HealthCheckTask.health_check, AssetRipperManager.health_check.
  rewrite !replaced_attempt_agrees.
  destruct (negb _ && _); [done|].
  destruct (AssetRipperManager.client self); [|done].
  destruct (probe env) as [code ?|?|?|?]; try done.
  - by destruct (decide (code = 200)).
  - by destruct (negb _).
  - by destruct (negb _).
Qed.

Lemma replaced_loop_agrees settings envs self :
  HealthCheckTask._health_check_loop settings envs HealthCheckTask.Replaced self
  = (AssetRipperManager._health_check_loop settings envs self, false).
Proof.
  revert self. induction envs as [|env envs IH]; intros self; [done|].
  cbn [HealthCheckTask._health_check_loop AssetRipperManager._health_check_loop].
  rewrite replaced_pass_agrees.
  destruct (AssetRipperManager.health_check settings env self) as [self1 calls1].
  cbn [fst snd]. rewrite IH.
  by destruct (AssetRipperManager._health_check_loop settings envs self1).
Qed.

(** A pass that finds the worker of a self-managed supervisor gone goes to
    [_attempt_restart]. *)
Lemma triggering_pass settings env standing self :
  AssetRipperManager._use_external_host self = false →
  AssetRipperManager.process self = None ∨ is_Some (AssetRipperManager.client self) →
  restart_triggering env = true →
  HealthCheckTask.health_check settings env standing self
  = HealthCheckTask._attempt_restart settings (restart_env env) standing
      (AssetRipperManager.set_is_healthy false self).
Proof.
  intros Hext Hinv Htrig.
  unfold HealthCheckTask.health_check, restart_triggering in *.
  rewrite Hext. cbn [negb andb].
  destruct (AssetRipperManager.process self) as [p|] eqn:Hproc; [|done].
  destruct Hinv as [?|[c Hc]]; [done|]. rewrite Hc.
  destruct (bool_decide (observed_returncode env ≠ None)); [done|].
  by destruct (probe env).
Qed.

(** Two passes of the loop a supervisor was started with, the worker gone
    and the first restart failing: what they leave, whatever passes were to
    follow. *)
Lemma own_loop_two_passes settings env1 env2 more self :
  AssetRipperManager._use_external_host self = false →
  AssetRipperManager._restart_count self = 0 →
  2 ≤ AssetRipperManager._max_restarts self →
  is_Some (AssetRipperManager.health_check_task self) →
  AssetRipperManager.process self = None ∨ is_Some (AssetRipperManager.client self) →
  restart_triggering env1 = true →
  restart_fails settings env1 →
  restart_triggering env2 = true →
  HealthCheckTask._health_check_loop settings (env1 :: env2 :: more)
    (HealthCheckTask.Own false) self
  = (AssetRipperManager.set_restart_count 2
       (AssetRipperManager.set_is_healthy false
          (AssetRipperManager.start settings (restart_env env1)
             (AssetRipperManager.stop
                (AssetRipperManager.set_restart_count 1
                   (AssetRipperManager.set_is_healthy false self)))).1),
     [CallStop; CallSleep 2; CallStart; CallStop], true).
Proof.
  intros Hext Hzero Hmax [h Hh] Hinv Htrig1 Hfail Htrig2.
  cbn [HealthCheckTask._health_check_loop].
  rewrite (triggering_pass settings env1) by done.
  unfold HealthCheckTask._attempt_restart at 1. cbn.
  rewrite Hzero. destruct (decide _) as [|_]; [lia|].
  unfold HealthCheckTask.stop at 1. cbn. rewrite Hh.
  change (0 + 1) with 1.
  set (s2 := AssetRipperManager.stop _).
  pose proof (start_fields settings (restart_env env1) s2) as (Hn & Hm & He & Hp).
  pose proof (start_raised_handle settings (restart_env env1) s2 (Hfail s2 Hext)) as Hkeep.
  pose proof (Hfail s2 Hext) as Hraised.
  destruct (AssetRipperManager.start settings (restart_env env1) s2) as [s3 [|e]];
    [done|]. cbn in Hn, Hm, He, Hp, Hkeep.
  rewrite Hext in He. rewrite Hh in Hkeep. specialize (Hp eq_refl).
  rewrite (triggering_pass settings env2) by done.
  unfold HealthCheckTask._attempt_restart. cbn.
  rewrite Hn, Hm. destruct (decide _) as [|_]; [lia|].
  unfold HealthCheckTask.stop. cbn. rewrite Hkeep. cbn.
  done.
Qed.

(** C4.  The loop a supervisor is started with is the task held in
    [health_check_task].  When the worker of a self-managed supervisor is
    gone and cannot be started again, its first pass makes restart attempt 1:
    [stop], a sleep of 2 seconds, [start], which fails.  The second pass
    counts attempt 2 and calls [stop], which raises at the [await] of line
    108: no sleep is made and [start] is not called, and the cancellation
    that [stop] asked for ends the loop at its next sleep.  Whatever the
    maximum and however long the worker stays down, there are two attempts,
    one delay, and no pass after the second. *)
Theorem second_restart_attempt_ends_loop (settings : Settings)
    (env1 env2 : CheckEnv) (more : list CheckEnv) (self : AssetRipperManager.t) :
  AssetRipperManager._use_external_host self = false →
  AssetRipperManager._restart_count self = 0 →
  2 ≤ AssetRipperManager._max_restarts self →
  is_Some (AssetRipperManager.health_check_task self) →
  AssetRipperManager.process self = None ∨ is_Some (AssetRipperManager.client self) →
  restart_triggering env1 = true →
  restart_fails settings env1 →
  restart_triggering env2 = true →
  let r := HealthCheckTask._health_check_loop settings (env1 :: env2 :: more)
             (HealthCheckTask.Own false) self in
  r.1.2 = [CallStop; CallSleep 2; CallStart; CallStop]
  ∧ restart_delays r.1.2 = [2]
  ∧ AssetRipperManager._restart_count r.1.1 = 2
  ∧ r.2 = true
  ∧ r = HealthCheckTask._health_check_loop settings [env1; env2]
          (HealthCheckTask.Own false) self.
Proof.
  intros Hext Hzero Hmax Hhandle Hinv Htrig1 Hfail Htrig2 r. subst r.
  rewrite !(own_loop_two_passes settings env1 env2) by done.
  done.
Qed.

Lemma second_restart_attempt_ends_loop_witness :
  (HealthCheckTask._health_check_loop sample_settings sample_outage
     (HealthCheckTask.Own false) sample_manager).1.2
  = [CallStop; CallSleep 2; CallStart; CallStop]
  ∧ AssetRipperManager._restart_count
      (HealthCheckTask._health_check_loop sample_settings sample_outage
         (HealthCheckTask.Own false) sample_manager).1.1
    = 2
  ∧ (HealthCheckTask._health_check_loop sample_settings sample_outage
       (HealthCheckTask.Own false) sample_manager).2
    = true.
Proof.
  assert (restart_fails sample_settings
            (mkCheckEnv (Some 139) (Response 200 "") sample_failing_start)) as Hfail.
  { intros s Hs. unfold AssetRipperManager.start. rewrite Hs. done. }
  destruct (second_restart_attempt_ends_loop sample_settings
              (mkCheckEnv (Some 139) (Response 200 "") sample_failing_start)
              (mkCheckEnv (Some 139) (Response 200 "") sample_failing_start)
              (replicate 4 (mkCheckEnv (Some 139) (Response 200 "") sample_failing_start))
              sample_manager eq_refl eq_refl ltac:(done) (ex_intro _ _ eq_refl)
              (or_intror (ex_intro _ _ eq_refl)) eq_refl Hfail eq_refl)
    as (Hcalls & _ & Hcount & Hended & _).
  split; [exact Hcalls|]. split; [exact Hcount|exact Hended].
Defined.

(** The same outage met by a loop that has been replaced.  The first pass
    restarts the worker, which puts a new task in [health_check_task]; from
    then on the [stop] of this loop awaits another task and returns, and the
    five attempts that follow sleep 2, 4, 8, 16 and 32 seconds. *)
Example replaced_loop_backs_off :
  restart_delays
    (HealthCheckTask._health_check_loop sample_settings sample_relapse
       (HealthCheckTask.Own false) sample_manager).1.2
  = [2; 2; 4; 8; 16; 32]
  ∧ (HealthCheckTask._health_check_loop sample_settings sample_relapse
       (HealthCheckTask.Own false) sample_manager).2
    = false.
Proof. vm_compute. done. Qed.

(** ** Enqueue *)

(** C8 as stated fails: after [stop], [add_task] is not a no-op; it returns
    and the identifier is in the queue. *)
Lemma add_task_after_stop_enqueues :
  _running (manager stopped_world) = false
  ∧ queue (manager stopped_world) = []
  ∧ queue (add_task "t9" (manager stopped_world)) = ["t9"].
Proof. done. Qed.

(** C8, amended.  [add_task] appends the identifier to the tail of the queue
    whatever the state of the manager, running or stopped: the queue grows by
    exactly that one entry, the entries before it keep their order, nothing
    else of the manager changes, and the call has no failure case.  In
    particular it is never a no-op. *)
Theorem add_task_appends (task_id : string) (self : t) :
  queue (add_task task_id self) = queue self ++ [task_id]
  ∧ get_queue_size (add_task task_id self) = get_queue_size self + 1
  ∧ (∀ i : nat, (i < length (queue self))%nat →
       queue (add_task task_id self) !! i = queue self !! i)
  ∧ queue (add_task task_id self) !! length (queue self) = Some task_id
  ∧ worker_task (add_task task_id self) = worker_task self
  ∧ current_task_id (add_task task_id self) = current_task_id self
  ∧ _running (add_task task_id self) = _running self
  ∧ queue (add_task task_id self) ≠ queue self.
Proof.
  unfold add_task, get_queue_size. cbn. split_and!; try done.
  - rewrite length_app. cbn. lia.
  - intros i Hi. by rewrite lookup_app_l.
  - by rewrite list_lookup_middle.
  - intros Heq. apply (f_equal length) in Heq. rewrite length_app in Heq.
    cbn in Heq. lia.
Qed.

(** ** FIFO dispatch *)

Lemma in_turn_snoc (ids : list string) (task_id : string) :
  in_turn (ids ++ [task_id]) = in_turn ids ++ [Begin task_id; Finish task_id].
Proof. unfold in_turn. by rewrite flat_map_app. Qed.

Lemma log_agrees_finish history w task_id m' db' :
  log_agrees history w →
  current_task_id (manager w) = Some task_id →
  queue m' = queue (manager w) →
  current_task_id m' = None →
  log_agrees history (mkWorld m' db' (dispatched w ++ [Finish task_id])).
Proof.
  intros (finished & Hhist & Hlog) Hcur Hq Hnone.
  exists (finished ++ [task_id]). cbn. rewrite Hq, Hnone, Hlog, Hcur, in_turn_snoc.
  rewrite Hcur in Hhist. cbn in *. split.
  - by rewrite <- app_assoc.
  - by rewrite app_nil_r, <- app_assoc.
Qed.

Lemma step_log_agrees settings history w op :
  log_agrees history w →
  log_agrees (history ++ enqueued [op]) (step settings w op).
Proof.
  intros Hagree.
  destruct op as [task_id|utcnow|p| |env]; cbn -[in_turn]; rewrite ?app_nil_r.
  - destruct Hagree as (finished & Hhist & Hlog). exists finished. cbn.
    split; [|done]. rewrite Hhist. by rewrite <- !app_assoc.
  - unfold start. destruct (_running (manager w)); [done|].
    destruct Hagree as (finished & Hhist & Hlog). by exists finished.
  - unfold stop. destruct (negb _); [done|].
    destruct (current_task_id (manager w)) as [task_id|] eqn:Hcur.
    + by apply log_agrees_finish.
    + destruct Hagree as (finished & Hhist & Hlog). exists finished. cbn.
      by rewrite Hcur in Hhist, Hlog.
  - unfold worker_get. destruct (_ && _) eqn:Hidle; [|done].
    apply andb_true_iff in Hidle as [_ Hnone%bool_decide_eq_true].
    destruct (queue (manager w)) as [|task_id rest] eqn:Hq; [done|].
    destruct Hagree as (finished & Hhist & Hlog). exists finished. cbn.
    rewrite Hnone, Hq in Hhist. rewrite Hnone in Hlog. cbn in *.
    rewrite Hlog, app_nil_r. done.
  - unfold worker_process.
    destruct (current_task_id (manager w)) as [task_id|] eqn:Hcur; [|done].
    destruct (_process_task settings task_id env (tasks w)) as [[db1 records] outcome].
    by apply log_agrees_finish.
Qed.

Lemma run_log_agrees settings ops history w :
  log_agrees history w →
  log_agrees (history ++ enqueued ops) (run settings ops w).
Proof.
  revert history w. induction ops as [|op ops IH]; intros history w Hagree.
  - by rewrite app_nil_r.
  - cbn [run fold_left]. change (op :: ops) with ([op] ++ ops).
    unfold enqueued. rewrite omap_app, app_assoc.
    apply IH. by apply step_log_agrees.
Qed.

(** Where a [Begin] sits in a log of passes made in turn. *)
Lemma in_turn_begin (finished : list string) (current : option string) pre b post :
  in_turn finished ++ open_pass current = pre ++ Begin b :: post →
  ∃ earlier later,
    finished ++ option_list current = earlier ++ b :: later ∧ pre = in_turn earlier.
Proof.
  revert pre. induction finished as [|a finished IH]; intros pre Hlog.
  - destruct current as [c|]; cbn in Hlog; [|by destruct pre].
    destruct pre as [|x [|y pre]]; try done.
    injection Hlog as -> <-. by exists [], [].
  - cbn in Hlog. destruct pre as [|x [|y pre]]; cbn in Hlog.
    + injection Hlog as -> _. by exists [], (finished ++ option_list current).
    + by injection Hlog.
    + injection Hlog as <- <- Hlog. destruct (IH pre Hlog) as (earlier & later & Heq & ->).
      exists (a :: earlier), later. cbn. by rewrite Heq.
Qed.

(** C7.  In any run of the service (enqueues, worker passes, starts and
    stops in any order) the dispatch log is at every moment a sequence of
    completed passes, each a [Begin] directly followed by its [Finish], then at
    most one open [Begin]; the passes are the enqueued identifiers in enqueue
    order.  So when the pass for B begins, the passes of exactly the tasks
    enqueued before B have begun and ended, and no other pass is open. *)
Theorem fifo_dispatch (settings : Settings) (db : Store) (ops : list Op) :
  (∀ pre b post,
     dispatched (run settings ops (boot db)) = pre ++ Begin b :: post →
     ∃ earlier later,
       enqueued ops = earlier ++ b :: later ∧ pre = in_turn earlier)
  ∧ (∃ finished,
       dispatched (run settings ops (boot db))
       = in_turn finished
         ++ open_pass (current_task_id (manager (run settings ops (boot db))))
       ∧ enqueued ops
         = finished
           ++ option_list (current_task_id (manager (run settings ops (boot db))))
           ++ queue (manager (run settings ops (boot db)))).
Proof.
  assert (log_agrees [] (boot db)) as Hboot by (by exists []).
  apply (run_log_agrees settings ops) in Hboot as (finished & Hhist & Hlog).
  cbn in Hhist. split; [|by exists finished].
  intros pre b post Hsplit. rewrite Hlog in Hsplit.
  apply in_turn_begin in Hsplit as (earlier & later & Heq & ->).
  exists earlier, (later ++ queue (manager (run settings ops (boot db)))).
  split; [|done]. rewrite Hhist, app_assoc, Heq. by rewrite <- app_assoc.
Qed.

Lemma fifo_dispatch_witness :
  dispatched (run sample_settings sample_run (boot sample_store))
  = [Begin "t3"; Finish "t3"] ++ Begin "t2" :: [Finish "t2"; Begin "t3"; Finish "t3"]
  ∧ ∃ earlier later,
      enqueued sample_run = earlier ++ "t2" :: later
      ∧ [Begin "t3"; Finish "t3"] = in_turn earlier.
Proof.
  split; [reflexivity|].
  exact (proj1 (fifo_dispatch sample_settings sample_store sample_run)
           [Begin "t3"; Finish "t3"] "t2" [Finish "t2"; Begin "t3"; Finish "t3"]
           eq_refl).
Defined.

(** ** Terminal rows *)

Lemma terminal_not_pending task : terminal task → status task ≠ TaskStatus.PENDING.
Proof. intros [H|H]; rewrite H; done. Qed.

Lemma terminal_not_processing task :
  terminal task → status task ≠ TaskStatus.PROCESSING.
Proof. intros [H|H]; rewrite H; done. Qed.

(** With the calls on the store returning, [_process_task] lets no exception
    out: every [raise] of its [try] block is caught by one of its two
    handlers. *)
Lemma process_task_returns settings task_id env db :
  (_process_task settings task_id env db).2 = Returned.
Proof.
  unfold _process_task.
  destruct (db !! task_id) as [task|]; [|done].
  destruct (decide _); [done|].
  destruct (load_and_export settings task_id task env) as [records [[assets size]|e]];
    [done|]. by destruct (is_AssetRipperError (exn_class e)).
Qed.

(** A dequeued task that is not PENDING is skipped: one warning, no write. *)
Lemma process_task_skips settings task_id env (db : Store) task :
  db !! task_id = Some task →
  status task ≠ TaskStatus.PENDING →
  _process_task settings task_id env db
  = (db,
     [(WARNING, "Task " +:+ task_id +:+ " is not PENDING (status: "
                +:+ status task +:+ "), skipping")],
     Returned).
Proof.
  intros Hrow Hstatus. unfold _process_task. rewrite Hrow.
  by destruct (decide _).
Qed.

(** [_process_task] writes no row but the one it was called for. *)
Lemma process_task_other_rows settings task_id env (db : Store) id :
  id ≠ task_id →
  (_process_task settings task_id env db).1.1 !! id = db !! id.
Proof.
  intros Hne. unfold _process_task.
  destruct (db !! task_id) as [task|]; [|done].
  destruct (decide _); [done|].
  destruct (load_and_export settings task_id task env) as [records [[assets size]|e]];
    [|destruct (is_AssetRipperError (exn_class e))]; cbn;
    unfold _mark_task_failed; by rewrite lookup_alter_ne, lookup_insert_ne.
Qed.

Lemma process_task_keeps_terminal settings task_id env (db : Store) id task :
  db !! id = Some task → terminal task →
  (_process_task settings task_id env db).1.1 !! id = Some task.
Proof.
  intros Hrow Hterm. destruct (decide (id = task_id)) as [->|Hne].
  - by rewrite (process_task_skips _ _ _ _ task Hrow (terminal_not_pending _ Hterm)).
  - by rewrite process_task_other_rows.
Qed.

Lemma cancelled_run_keeps_terminal settings task_id p (db : Store) id task :
  db !! id = Some task → terminal task →
  cancelled_run settings task_id p db !! id = Some task.
Proof.
  intros Hrow Hterm. destruct p as [|now|env]; cbn; [done| |].
  - destruct (db !! task_id) as [task'|] eqn:Hrow'; [|done].
    destruct (decide _) as [|Hpending]; [done|].
    rewrite lookup_insert_ne; [done|]. intros <-.
    rewrite Hrow in Hrow'. injection Hrow' as <-.
    by apply Hpending, terminal_not_pending.
  - by apply process_task_keeps_terminal.
Qed.

Lemma step_keeps_terminal settings w op id task :
  tasks w !! id = Some task → terminal task →
  tasks (step settings w op) !! id = Some task.
Proof.
  intros Hrow Hterm. destruct op as [task_id|utcnow|p| |env]; cbn.
  - done.
  - unfold start. destruct (_running (manager w)); [done|]. cbn.
    rewrite recover_lookup, Hrow. cbn.
    destruct (decide _) as [Hproc|]; [|done].
    by apply terminal_not_processing in Hterm.
  - unfold stop. destruct (negb _); [done|].
    destruct (current_task_id (manager w)); [|done]. cbn.
    by apply cancelled_run_keeps_terminal.
  - unfold worker_get. destruct (_ && _); [|done].
    by destruct (queue (manager w)).
  - unfold worker_process.
    destruct (current_task_id (manager w)) as [task_id|]; [|done].
    pose proof (process_task_returns settings task_id env (tasks w)) as Hret.
    pose proof (process_task_keeps_terminal settings task_id env (tasks w) id task
                  Hrow Hterm) as Hkeep.
    destruct (_process_task settings task_id env (tasks w)) as [[db1 records] outcome].
    cbn in *. by rewrite Hret.
Qed.

(** *** When calls on the store raise *)

(** With no fault the pass is the pass above. *)
Lemma export_without_fault self export_path reply :
  WithFaults.export_primary_content None self export_path reply
  = AssetRipperManager.export_primary_content self export_path reply.
Proof.
  unfold WithFaults.export_primary_content, AssetRipperManager.export_primary_content.
  by destruct (AssetRipperManager.client self).
Qed.

Lemma load_and_export_without_mkdir_fault faults settings task_id task env :
  mkdir_fault faults = None →
  WithFaults.load_and_export faults settings task_id task env
  = load_and_export settings task_id task env.
Proof.
  intros Hmkdir. unfold WithFaults.load_and_export, load_and_export.
  by rewrite Hmkdir, export_without_fault.
Qed.

Lemma process_task_without_faults settings task_id env db :
  WithFaults._process_task no_faults settings task_id env db
  = _process_task settings task_id env db.
Proof.
  unfold WithFaults._process_task, _process_task. cbn.
  destruct (db !! task_id) as [task|]; [|done].
  destruct (decide _); [done|].
  rewrite load_and_export_without_mkdir_fault by done.
  destruct (load_and_export settings task_id task env) as [records [[assets size]|e]];
    [done|].
  destruct (is_AssetRipperError (exn_class e)); cbn;
    by rewrite <- ?(assoc_L (++)).
Qed.

Lemma worker_process_without_faults settings env w :
  WithFaults.worker_process no_faults settings env w = worker_process settings env w.
Proof.
  unfold WithFaults.worker_process, worker_process.
  destruct (current_task_id (manager w)) as [task_id|]; [|done].
  rewrite process_task_without_faults.
  by destruct (_process_task settings task_id env (tasks w)) as [[db1 records] [|e]].
Qed.

(** The guard of lines 150-152 is reached when the SELECT returns. *)
Lemma faulty_process_task_skips faults settings task_id env (db : Store) task :
  select_fault faults = None →
  db !! task_id = Some task →
  status task ≠ TaskStatus.PENDING →
  WithFaults._process_task faults settings task_id env db
  = (db,
     [(WARNING, "Task " +:+ task_id +:+ " is not PENDING (status: "
                +:+ status task +:+ "), skipping")],
     Returned).
Proof.
  intros Hselect Hrow Hstatus. unfold WithFaults._process_task.
  rewrite Hselect, Hrow. by destruct (decide _).
Qed.

(** Whatever raises, a pass writes no row but the one it was called for. *)
Lemma faulty_process_task_other_rows faults settings task_id env (db : Store) id :
  id ≠ task_id →
  (WithFaults._process_task faults settings task_id env db).1.1 !! id = db !! id.
Proof.
  intros Hne. unfold WithFaults._process_task, WithFaults.unexpected_error.
  destruct (select_fault faults); [done|].
  destruct (db !! task_id) as [task|]; [|done].
  destruct (decide _); [done|].
  destruct (commit_fault faults); [done|].
  destruct (WithFaults.load_and_export faults settings task_id task env)
    as [records [[assets size]|e]];
    [destruct (update_fault faults)|destruct (is_AssetRipperError (exn_class e))];
    destruct (mark_fault faults); cbn;
    unfold _mark_task_failed; by rewrite ?lookup_alter_ne, ?lookup_insert_ne.
Qed.

Lemma faulty_worker_process_keeps_terminal faults settings env w id task :
  select_fault faults = None →
  tasks w !! id = Some task → terminal task →
  tasks (WithFaults.worker_process faults settings env w) !! id = Some task.
Proof.
  intros Hselect Hrow Hterm. unfold WithFaults.worker_process.
  destruct (current_task_id (manager w)) as [task_id|]; [|done].
  destruct (decide (id = task_id)) as [->|Hne].
  - rewrite (faulty_process_task_skips faults settings task_id env _ task Hselect Hrow
               (terminal_not_pending _ Hterm)). done.
  - pose proof (faulty_process_task_other_rows faults settings task_id env (tasks w) id
                  Hne) as Hother.
    destruct (WithFaults._process_task faults settings task_id env (tasks w))
      as [[db1 records] [|e]]; cbn in *; [congruence|].
    destruct (worker_mark_fault faults); [congruence|].
    unfold _mark_task_failed. rewrite lookup_alter_ne by done. congruence.
Qed.

(** An operation leaves a terminal row as it is, unless it runs the pass of
    that very row and the SELECT of the pass raises. *)
Lemma faulty_step_keeps_terminal settings w op id task :
  tasks w !! id = Some task → terminal task →
  tasks (WithFaults.step settings w op) !! id = Some task
  ∨ ∃ faults env text,
      (op = WithFaults.OpWorkerProcess faults env ∨ op = WithFaults.OpStopAfter faults env)
      ∧ current_task_id (manager w) = Some id
      ∧ select_fault faults = Some text.
Proof.
  intros Hrow Hterm.
  destruct op as [task_id|utcnow [text|]|p|faults env| |faults env].
  - by left.
  - left. cbn. by destruct (_running (manager w)).
  - left. by apply (step_keeps_terminal settings w (OpStart utcnow)).
  - left. by apply (step_keeps_terminal settings w (OpStop p)).
  - cbn. unfold WithFaults.stop_after. destruct (negb _); [by left|]. cbn.
    destruct (select_fault faults) as [text|] eqn:Hselect.
    + destruct (decide (current_task_id (manager w) = Some id)) as [Hcur|Hcur].
      { right. exists faults, env, text. split_and!; [by right|done..]. }
      left. unfold WithFaults.worker_process.
      destruct (current_task_id (manager w)) as [task_id|]; [|done].
      assert (id ≠ task_id) as Hne by congruence.
      pose proof (faulty_process_task_other_rows faults settings task_id env (tasks w) id
                    Hne) as Hother.
      destruct (WithFaults._process_task faults settings task_id env (tasks w))
        as [[db1 records] [|e]]; cbn in *; [congruence|].
      destruct (worker_mark_fault faults); [congruence|].
      unfold _mark_task_failed. rewrite lookup_alter_ne by done. congruence.
    + left. by apply faulty_worker_process_keeps_terminal.
  - left. by apply (step_keeps_terminal settings w OpWorkerGet).
  - cbn. destruct (select_fault faults) as [text|] eqn:Hselect.
    + destruct (decide (current_task_id (manager w) = Some id)) as [Hcur|Hcur].
      { right. exists faults, env, text. split_and!; [by left|done..]. }
      left. unfold WithFaults.worker_process.
      destruct (current_task_id (manager w)) as [task_id|]; [|done].
      assert (id ≠ task_id) as Hne by congruence.
      pose proof (faulty_process_task_other_rows faults settings task_id env (tasks w) id
                    Hne) as Hother.
      destruct (WithFaults._process_task faults settings task_id env (tasks w))
        as [[db1 records] [|e]]; cbn in *; [congruence|].
      destruct (worker_mark_fault faults); [congruence|].
      unfold _mark_task_failed. rewrite lookup_alter_ne by done. congruence.
    + left. by apply faulty_worker_process_keeps_terminal.
Qed.

(** C2 as stated fails.  The COMPLETED task t3 is handed to [add_task] again;
    the SELECT of its pass finds the database locked, so the guard of lines
    150-152 is never reached, the exception leaves [_process_task], and the
    handler of lines 118-120 writes FAILED over the COMPLETED row. *)
Lemma completed_row_marked_failed :
  sample_store !! "t3" = Some (sample_task TaskStatus.COMPLETED)
  ∧ tasks (WithFaults.run sample_settings sample_faulty_run (boot sample_store)) !! "t3"
    = Some (set_failed 301 "database is locked" (sample_task TaskStatus.COMPLETED)).
Proof. vm_compute. done. Qed.

(** C2, amended.  Calls on the store may raise.  A row that is COMPLETED or
    FAILED stays the row it is through every run of the queue manager
    (enqueues, worker passes with any outcome of the pipeline and any other
    fault, [stop] with a cancellation at any point, [start] with its
    recovery) in which the SELECT of each pass returns.  When it returns, a
    dequeued task that is not PENDING is skipped: one warning, no write.  An
    operation changes a terminal row only if it runs the pass of that row and
    the SELECT of the pass raises; then the handler of lines 118-120 marks
    the row FAILED with the text of the exception, whatever its status
    was. *)
Theorem terminal_rows_unless_select_raises (settings : Settings) :
  (∀ (ops : list WithFaults.Op) (w : World) (id : string) (task : Task),
     tasks w !! id = Some task →
     status task = TaskStatus.COMPLETED ∨ status task = TaskStatus.FAILED →
     Forall WithFaults.select_returns ops →
     tasks (WithFaults.run settings ops w) !! id = Some task)
  ∧ (∀ (faults : Faults) (task_id : string) (env : PipelineEnv) (db : Store)
       (task : Task),
       select_fault faults = None →
       db !! task_id = Some task →
       status task ≠ TaskStatus.PENDING →
       WithFaults._process_task faults settings task_id env db
       = (db,
          [(WARNING, "Task " +:+ task_id +:+ " is not PENDING (status: "
                     +:+ status task +:+ "), skipping")],
          Returned))
  ∧ (∀ (w : World) (op : WithFaults.Op) (id : string) (task : Task),
       tasks w !! id = Some task →
       status task = TaskStatus.COMPLETED ∨ status task = TaskStatus.FAILED →
       tasks (WithFaults.step settings w op) !! id ≠ Some task →
       ∃ faults env text,
         (op = WithFaults.OpWorkerProcess faults env
          ∨ op = WithFaults.OpStopAfter faults env)
         ∧ current_task_id (manager w) = Some id
         ∧ select_fault faults = Some text)
  ∧ (∀ (faults : Faults) (env : PipelineEnv) (w : World) (task_id text : string)
       (task : Task),
       current_task_id (manager w) = Some task_id →
       tasks w !! task_id = Some task →
       select_fault faults = Some text →
       worker_mark_fault faults = None →
       tasks (WithFaults.worker_process faults settings env w) !! task_id
       = Some (set_failed (utcnow_worker env) text task)).
Proof.
  split_and!.
  - intros ops. induction ops as [|op ops IH]; intros w id task Hrow Hterm Hall; [done|].
    apply Forall_cons in Hall as [Hop Hall].
    cbn [WithFaults.run fold_left]. apply IH; [|done..].
    destruct (faulty_step_keeps_terminal settings w op id task Hrow Hterm)
      as [Hkeep|(faults & env & text & [->| ->] & _ & Hselect)]; [done|..];
      cbn in Hop; congruence.
  - intros faults task_id env db task. apply faulty_process_task_skips.
  - intros w op id task Hrow Hterm Hchanged.
    by destruct (faulty_step_keeps_terminal settings w op id task Hrow Hterm).
  - intros faults env w task_id text task Hcur Hrow Hselect Hmark.
    unfold WithFaults.worker_process, WithFaults._process_task.
    rewrite Hcur, Hselect, Hmark. cbn.
    unfold _mark_task_failed. by rewrite lookup_alter_eq, Hrow.
Qed.

Lemma terminal_rows_unless_select_raises_witness :
  tasks (WithFaults.run sample_settings sample_guarded_run (boot sample_store)) !! "t3"
  = Some (sample_task TaskStatus.COMPLETED)
  ∧ WithFaults._process_task sample_unwritable sample_settings "t3" sample_env sample_store
    = (sample_store,
       [(WARNING, "Task t3 is not PENDING (status: COMPLETED), skipping")],
       Returned).
Proof.
  split.
  - apply (proj1 (terminal_rows_unless_select_raises sample_settings)
             sample_guarded_run (boot sample_store) "t3"
             (sample_task TaskStatus.COMPLETED) eq_refl (or_introl eq_refl)).
    repeat constructor.
  - exact (proj1 (proj2 (terminal_rows_unless_select_raises sample_settings))
             sample_unwritable "t3" sample_env sample_store
             (sample_task TaskStatus.COMPLETED) eq_refl eq_refl ltac:(discriminate)).
Defined.

(** The same run, seen from the dispatch log and the store: t3 is skipped
    twice, t2 is processed to COMPLETED in between, t1 is failed by the first
    recovery. *)
Example sample_run_log :
  dispatched (run sample_settings sample_run (boot sample_store))
  = [Begin "t3"; Finish "t3"; Begin "t2"; Finish "t2"; Begin "t3"; Finish "t3"]
  ∧ status <$> tasks (run sample_settings sample_run (boot sample_store)) !! "t2"
    = Some TaskStatus.COMPLETED
  ∧ status <$> tasks (run sample_settings sample_run (boot sample_store)) !! "t1"
    = Some TaskStatus.FAILED
  ∧ completed_at <$> tasks (run sample_settings sample_run (boot sample_store)) !! "t1"
    = Some (Some 150).
Proof. vm_compute. done. Qed.

(** * Further properties of the supervisor and the pipeline *)

(** ** [export_primary_content] *)

(** X1.  When the directory of the export can be made, [export_primary_content]
    ends the way [load_file] does for the same supervisor state and the same
    answer of the worker: both return, or both raise an exception of the same
    class; and a timeout is reported as a plain [AssetRipperError] whose text
    starts with the export's own prefix.  It returns exactly when the
    directory was made, the client is initialised and the status is 2xx.
    When the [mkdir] of line 192 raises, its exception leaves the method as
    it is, whatever the worker would have answered; it is not an
    [AssetRipperError], so [_process_task] fails the task through the handler
    of line 221, with the text "Unexpected error: ..." and without the
    [reset] that follows a failure of the worker. *)
Theorem export_like_load_unless_mkdir (self : AssetRipperManager.t)
    (file_path export_path : string) (reply : HttpReply) :
  match AssetRipperManager.load_file self file_path reply,
        WithFaults.export_primary_content None self export_path reply with
  | Ok _, Ok _ => True
  | Raise e1, Raise e2 => exn_class e1 = exn_class e2
  | _, _ => False
  end
  ∧ (∀ mkdir_fault,
       WithFaults.export_primary_content mkdir_fault self export_path reply = Ok tt
       ↔ mkdir_fault = None
         ∧ is_Some (AssetRipperManager.client self)
         ∧ ∃ code detail, reply = Response code detail ∧ 200 ≤ code ≤ 299)
  ∧ (∀ detail, is_Some (AssetRipperManager.client self) →
       reply = TimeoutException detail →
       WithFaults.export_primary_content None self export_path reply
       = Raise (mkExn AssetRipperError ("Export timeout: " +:+ detail)))
  ∧ (∀ text, is_Some (AssetRipperManager.client self) →
       WithFaults.export_primary_content (Some text) self export_path reply
       = Raise (mkExn OSError text)
       ∧ is_AssetRipperError OSError = false)
  ∧ (∀ settings faults task_id env (db : Store) task text,
       select_fault faults = None →
       commit_fault faults = None →
       mark_fault faults = None →
       mkdir_fault faults = Some text →
       db !! task_id = Some task →
       status task = TaskStatus.PENDING →
       is_Some (fs_before env (upload_path task)) →
       AssetRipperManager.load_file (manager_at_load env)
         (absolute (cwd env) (upload_path task)) (load_reply env) = Ok tt →
       is_Some (AssetRipperManager.client (manager_at_export env)) →
       WithFaults._process_task faults settings task_id env db
       = (_mark_task_failed task_id ("Unexpected error: " +:+ text)
            (utcnow_finished env)
            (<[task_id := set_processing (utcnow_started env) task]> db),
          [(INFO, "Task " +:+ task_id +:+ " started processing");
           (INFO, "Task " +:+ task_id +:+ ": Loading file into AssetRipper: "
                  +:+ upload_path task);
           (INFO, "Task " +:+ task_id +:+ ": Exporting to: "
                  +:+ get_task_export_dir settings task_id);
           (ERROR, "Task " +:+ task_id +:+ " failed with unexpected error: " +:+ text);
           (INFO, "Task " +:+ task_id +:+ " marked as FAILED")],
          Returned)).
Proof.
  split_and!.
  - rewrite export_without_fault.
    unfold AssetRipperManager.load_file, AssetRipperManager.export_primary_content.
    destruct (AssetRipperManager.client self) as [c|]; [|done].
    destruct reply as [code detail|detail|detail|detail]; try done.
    by destruct (is_success code).
  - intros mkdir_fault. unfold WithFaults.export_primary_content,
      AssetRipperManager.export_primary_content.
    destruct (AssetRipperManager.client self) as [c|];
      [|split; [done|by intros (_ & [? ?] & _)]].
    destruct mkdir_fault as [text|]; [split; [done|by intros [? _]]|].
    destruct reply as [code detail|detail|detail|detail]; try naive_solver.
    destruct (is_success code) eqn:Hcode; unfold is_success in Hcode.
    + apply andb_true_iff in Hcode as [?%Z.leb_le ?%Z.leb_le]. naive_solver.
    + assert (¬ (200 ≤ code ≤ 299)) as Hout.
      { intros [?%Z.leb_le ?%Z.leb_le].
        rewrite andb_false_iff in Hcode; destruct Hcode; congruence. }
      naive_solver.
  - intros detail [c Hc] ->. rewrite export_without_fault.
    unfold AssetRipperManager.export_primary_content. by rewrite Hc.
  - intros text [c Hc]. unfold WithFaults.export_primary_content. by rewrite Hc.
  - intros settings faults task_id env db task text Hselect Hcommit Hmark Hmkdir
      Hrow Hpending [node Hfs] Hload [c Hc].
    unfold WithFaults._process_task, WithFaults.load_and_export,
      WithFaults.unexpected_error, WithFaults.export_primary_content.
    rewrite Hselect, Hrow, Hcommit, Hfs, Hload, Hmkdir, Hc, Hmark.
    destruct (decide _) as [|_]; [done|]. done.
Qed.

(** ** A pass over a PENDING row *)

(** A pass over a PENDING row leaves it in a terminal state. *)
Lemma process_task_ends_terminal_aux settings task_id env (db : Store) task :
  db !! task_id = Some task →
  status task = TaskStatus.PENDING →
  ∃ task' : Task,
    (_process_task settings task_id env db).1.1 !! task_id = Some task'
    ∧ terminal task'.
Proof.
  intros Hrow Hpending. unfold _process_task. rewrite Hrow.
  destruct (decide _) as [|_]; [done|].
  destruct (load_and_export settings task_id task env) as [records [[assets size]|e]].
  - eexists. cbn. rewrite lookup_alter_eq, lookup_insert_eq. cbn.
    split; [done|by left].
  - destruct (is_AssetRipperError (exn_class e)); eexists; cbn;
      unfold _mark_task_failed; rewrite lookup_alter_eq, lookup_insert_eq; cbn;
      (split; [done|by right]).
Qed.







(** ** At most one row in PROCESSING *)









(** ** The restart counter stays within its bounds *)

Lemma health_check_counter settings env self :
  0 ≤ AssetRipperManager._restart_count self ≤ AssetRipperManager._max_restarts self →
  let r := AssetRipperManager.health_check settings env self in
  0 ≤ AssetRipperManager._restart_count r.1 ≤ AssetRipperManager._max_restarts r.1
  ∧ AssetRipperManager._max_restarts r.1 = AssetRipperManager._max_restarts self
  ∧ AssetRipperManager._use_external_host r.1 = AssetRipperManager._use_external_host self.
Proof.
  intros Hbound.
  assert (∀ s, 0 ≤ AssetRipperManager._restart_count s ≤ AssetRipperManager._max_restarts s →
               let a := AssetRipperManager._attempt_restart settings (restart_env env) s in
               0 ≤ AssetRipperManager._restart_count a.1 ≤ AssetRipperManager._max_restarts a.1
               ∧ AssetRipperManager._max_restarts a.1 = AssetRipperManager._max_restarts s
               ∧ AssetRipperManager._use_external_host a.1
                 = AssetRipperManager._use_external_host s) as Hattempt.
  { intros s Hs. unfold AssetRipperManager._attempt_restart.
    destruct (decide _) as [Hfull|Hroom]; cbn; [done|].
    pose proof (start_fields settings (restart_env env)
      (AssetRipperManager.stop
         (AssetRipperManager.set_restart_count
            (AssetRipperManager._restart_count s + 1) s))) as (Hn & Hm & He & _).
    destruct (AssetRipperManager.start _ _ _) as [s3 [|e]]; cbn in *;
      rewrite ?Hn, Hm, He; split_and!; try done; lia. }
  unfold AssetRipperManager.health_check.
  destruct (negb _ && _); [by apply (Hattempt (AssetRipperManager.set_is_healthy false self))|].
  destruct (AssetRipperManager.client self); [|done].
  destruct (probe env) as [code ?|?|?|?]; try done.
  - by destruct (decide _).
  - destruct (negb _); [|done].
    by apply (Hattempt (AssetRipperManager.set_is_healthy false self)).
  - destruct (negb _); [|done].
    by apply (Hattempt (AssetRipperManager.set_is_healthy false self)).
Qed.

(** A pass makes no supervisor call or the three calls of one attempt. *)
Lemma health_check_calls settings env self :
  (length (restart_delays (AssetRipperManager.health_check settings env self).2) ≤ 1)%nat.
Proof.
  assert (∀ s, (length (restart_delays
                  (AssetRipperManager._attempt_restart settings (restart_env env) s).2)
                ≤ 1)%nat) as Hattempt.
  { intros s. unfold AssetRipperManager._attempt_restart.
    destruct (decide _); cbn; [lia|].
    destruct (AssetRipperManager.start _ _ _) as [s3 [|e]]; cbn; lia. }
  unfold AssetRipperManager.health_check.
  destruct (negb _ && _); [apply Hattempt|].
  destruct (AssetRipperManager.client self); [|cbn; lia].
  destruct (probe env) as [code ?|?|?|?]; cbn; try lia.
  - destruct (decide _); cbn; lia.
  - destruct (negb _); [apply Hattempt|cbn; lia].
  - destruct (negb _); [apply Hattempt|cbn; lia].
Qed.

(** X6.  Whatever the passes of the health-check loop meet (live or dead
    child, any answer to the probe, restarts that fail or succeed), the
    restart counter stays between zero and the maximum, the maximum itself
    and the mode never change, and the number of restart attempts made is at
    most the number of passes. *)
Theorem restart_counter_bounded (settings : Settings) (envs : list CheckEnv)
    (self : AssetRipperManager.t) :
  0 ≤ AssetRipperManager._restart_count self ≤ AssetRipperManager._max_restarts self →
  let r := AssetRipperManager._health_check_loop settings envs self in
  0 ≤ AssetRipperManager._restart_count r.1 ≤ AssetRipperManager._max_restarts self
  ∧ AssetRipperManager._max_restarts r.1 = AssetRipperManager._max_restarts self
  ∧ AssetRipperManager._use_external_host r.1 = AssetRipperManager._use_external_host self
  ∧ (length (restart_delays r.2) ≤ length envs)%nat.
Proof.
  revert self. induction envs as [|env envs IH]; intros self Hbound; cbn.
  { split_and!; first [done | cbn; lia]. }
  pose proof (health_check_counter settings env self Hbound) as (Hb1 & Hm1 & He1).
  pose proof (health_check_calls settings env self) as Hone.
  destruct (AssetRipperManager.health_check settings env self) as [s1 calls1].
  cbn in *. specialize (IH s1 Hb1).
  destruct (AssetRipperManager._health_check_loop settings envs s1) as [s2 calls2].
  cbn in *. destruct IH as (Hb & Hm & He & Hlen).
  unfold restart_delays in *. rewrite omap_app, length_app.
  rewrite Hm, He, Hm1, He1 in *. split_and!; try done; lia.
Qed.

Lemma restart_counter_bounded_witness :
  0 ≤ AssetRipperManager._restart_count
        (AssetRipperManager._health_check_loop sample_settings sample_outage sample_manager).1
    ≤ 5
  ∧ (length (restart_delays
       (AssetRipperManager._health_check_loop sample_settings sample_outage sample_manager).2)
     ≤ 6)%nat.
Proof.
  destruct (restart_counter_bounded sample_settings sample_outage sample_manager
              ltac:(cbn; lia)) as (Hb & _ & _ & Hlen).
  split; [exact Hb|exact Hlen].
Defined.

(** ** What [start] of the supervisor establishes *)

Lemma wait_for_ready_outcome settings self polls final :
  match AssetRipperManager._wait_for_ready settings self polls final with
  | (self', Returned) => self' = AssetRipperManager.set_is_healthy true self
  | (self', Raised e) =>
      self' = self
      ∧ (exn_class e = AssetRipperProcessError ∨ exn_class e = RuntimeError)
      ∧ (AssetRipperManager._use_external_host self = true →
         exn_class e = AssetRipperProcessError →
         exn_str e = "AssetRipper did not become ready within "
                     +:+ pretty (assetripper_startup_timeout settings) +:+ " seconds")
  end.
Proof.
  induction polls as [|p polls IH]; cbn.
  - unfold AssetRipperManager.child_exited.
    destruct (AssetRipperManager._use_external_host self); [by split_and!; [|left|]|].
    destruct (AssetRipperManager.process self); [|by split_and!; [|left|]].
    destruct final; by split_and!; [|left|].
  - unfold AssetRipperManager.child_exited in *.
    destruct (AssetRipperManager._use_external_host self) eqn:Hext.
    + destruct (poll_reply p) as [code ?|?|?|?]; try done.
      * by destruct (decide (code = 200)).
      * by split_and!; [|right|].
    + destruct (AssetRipperManager.process self).
      * destruct (poll_returncode p); [by split_and!; [|left|]|].
        destruct (poll_reply p) as [code ?|?|?|?]; try done.
        -- by destruct (decide (code = 200)).
        -- by split_and!; [|right|].
      * destruct (poll_reply p) as [code ?|?|?|?]; try done.
        -- by destruct (decide (code = 200)).
        -- by split_and!; [|right|].
Qed.

(** X7.  When [start] of the supervisor returns, the client is bound to the
    configured base URL, the health flag is set, the health-check task is
    scheduled and, in self-managed mode, a child process is held.  When it
    raises, the exception is an [AssetRipperProcessError] (or an error of the
    HTTP client let through), the health flag and the health-check task are
    as they were, and no new health-check task was scheduled.  In
    external-host mode the process handle is never touched and the only
    process error is the startup timeout. *)
Theorem supervisor_start_establishes (settings : Settings) (env : StartEnv)
    (self : AssetRipperManager.t) :
  match AssetRipperManager.start settings env self with
  | (self', Returned) =>
      AssetRipperManager.client self' = Some (assetripper_base_url settings)
      ∧ AssetRipperManager._is_healthy self' = true
      ∧ AssetRipperManager.health_check_task self' = Some Scheduled
      ∧ (AssetRipperManager._use_external_host self = false →
         is_Some (AssetRipperManager.process self'))
  | (self', Raised e) =>
      (exn_class e = AssetRipperProcessError ∨ exn_class e = RuntimeError)
      ∧ AssetRipperManager._is_healthy self' = AssetRipperManager._is_healthy self
      ∧ AssetRipperManager.health_check_task self'
        = AssetRipperManager.health_check_task self
  end
  ∧ (AssetRipperManager._use_external_host self = true →
     AssetRipperManager.process (AssetRipperManager.start settings env self).1
     = AssetRipperManager.process self
     ∧ ∀ e, (AssetRipperManager.start settings env self).2 = Raised e →
            exn_class e = AssetRipperProcessError →
            exn_str e = "AssetRipper did not become ready within "
                        +:+ pretty (assetripper_startup_timeout settings) +:+ " seconds").
Proof.
  unfold AssetRipperManager.start.
  destruct (AssetRipperManager._use_external_host self) eqn:Hext.
  - pose proof (wait_for_ready_outcome settings
      (AssetRipperManager.set_client (Some (assetripper_base_url settings)) self)
      (polls env) (final_returncode env)) as Hwait.
    destruct (AssetRipperManager._wait_for_ready _ _ _ _) as [self3 [|e]].
    + subst self3. cbn. split; [by split_and!|]. intros _. split; [done|].
      by intros e.
    + destruct Hwait as (-> & Hclass & Hmsg). cbn. split; [by split_and!|].
      intros _. split; [done|]. intros e' [= <-]. by apply Hmsg.
  - split; [|done].
    destruct (spawn env) as [p|e0]; [|cbn; by split_and!; [left| |]].
    pose proof (wait_for_ready_outcome settings
      (AssetRipperManager.set_client (Some (assetripper_base_url settings))
         (AssetRipperManager.set_process (Some p) self))
      (polls env) (final_returncode env)) as Hwait.
    destruct (AssetRipperManager._wait_for_ready _ _ _ _) as [self3 [|e]].
    + subst self3. cbn. by split_and!.
    + destruct Hwait as (-> & Hclass & _). cbn. by split_and!.
Qed.

(** ** After [stop] *)

(** X8.  [stop] of the supervisor is idempotent, and a stopped supervisor
    reports unhealthy and answers every [load_file], [export_primary_content]
    and [reset] with an [AssetRipperConnectionError], whatever the worker would
    say. *)
Theorem supervisor_stop_disables (self : AssetRipperManager.t)
    (path : string) (reply : HttpReply) :
  AssetRipperManager.stop (AssetRipperManager.stop self) = AssetRipperManager.stop self
  ∧ AssetRipperManager.is_healthy (AssetRipperManager.stop self) = false
  ∧ AssetRipperManager.load_file (AssetRipperManager.stop self) path reply
    = Raise (mkExn AssetRipperConnectionError "AssetRipper client not initialized")
  ∧ AssetRipperManager.export_primary_content (AssetRipperManager.stop self) path reply
    = Raise (mkExn AssetRipperConnectionError "AssetRipper client not initialized")
  ∧ AssetRipperManager.reset (AssetRipperManager.stop self) reply
    = Raise (mkExn AssetRipperConnectionError "AssetRipper client not initialized")
  ∧ AssetRipperManager._restart_count (AssetRipperManager.stop self)
    = AssetRipperManager._restart_count self.
Proof.
  split_and!; try done.
  unfold AssetRipperManager.stop. cbn.
  by destruct (AssetRipperManager.health_check_task self).
Qed.

(** X9.  The lifecycle calls of the queue manager are idempotent and keep the
    queue: a second [stop], or a [stop] before any [start], changes nothing; a
    second [start] changes nothing (no second recovery); and neither call
    drops or reorders a queued identifier.  After [stop] the manager is not
    running and no task is current. *)
Theorem queue_lifecycle_idempotent (settings : Settings) (p p' : Progress)
    (utcnow utcnow' : string → datetime) (w : World) (db : Store) :
  stop settings p' (stop settings p w) = stop settings p w
  ∧ stop settings p (boot db) = boot db
  ∧ start utcnow' (start utcnow w) = start utcnow w
  ∧ queue (manager (stop settings p w)) = queue (manager w)
  ∧ queue (manager (start utcnow w)) = queue (manager w)
  ∧ (_running (manager w) = true →
     _running (manager (stop settings p w)) = false
     ∧ current_task_id (manager (stop settings p w)) = None).
Proof.
  unfold stop, start, boot. split_and!.
  - destruct (_running (manager w)) eqn:Hrun; cbn; [|by rewrite Hrun].
    by destruct (current_task_id (manager w)).
  - done.
  - destruct (_running (manager w)) eqn:Hrun; cbn; by rewrite ?Hrun.
  - destruct (_running (manager w)); cbn; [|done].
    by destruct (current_task_id (manager w)).
  - by destruct (_running (manager w)).
  - intros ->. cbn. by destruct (current_task_id (manager w)).
Qed.

(** ** [get_directory_size] and the shape of the tree *)

Lemma bytes_under_cons name (n : Node) (es : list (string * Node)) :
  bytes_under (Dir ((name, n) :: es)) = bytes_at n + bytes_under (Dir es).
Proof. done. Qed.

Lemma bytes_under_app (es1 es2 : list (string * Node)) :
  bytes_under (Dir (es1 ++ es2)) = bytes_under (Dir es1) + bytes_under (Dir es2).
Proof.
  induction es1 as [|[name n] es1 IH]; [done|].
  change (((name, n) :: es1) ++ es2) with ((name, n) :: (es1 ++ es2)).
  rewrite !bytes_under_cons, IH. lia.
Qed.

(** X10.  The size [get_directory_size] reports does not depend on the order
    in which the entries of a directory are listed nor on their names, adds up
    over a split of the entries, counts an entry that is a regular file by
    its size and an entry that is a directory by the size of that directory,
    and is zero for an empty directory and for a path that is not a
    directory. *)
Theorem get_directory_size_entries :
  (∀ es es' : list (string * Node),
     es.*2 ≡ₚ es'.*2 → get_directory_size (Dir es) = get_directory_size (Dir es'))
  ∧ (∀ es1 es2 : list (string * Node),
       get_directory_size (Dir (es1 ++ es2))
       = get_directory_size (Dir es1) + get_directory_size (Dir es2))
  ∧ (∀ name sz, get_directory_size (Dir [(name, File sz)]) = sz)
  ∧ (∀ name es, get_directory_size (Dir [(name, Dir es)]) = get_directory_size (Dir es))
  ∧ get_directory_size (Dir []) = 0
  ∧ (∀ sz, get_directory_size (File sz) = 0)
  ∧ get_directory_size Other = 0.
Proof.
  split_and!; try done.
  - assert (∀ es : list (string * Node),
              bytes_under (Dir es) = foldr (λ n acc, bytes_at n + acc) 0 (es.*2)) as Hsum.
    { induction es as [|[name n] es IH]; [done|].
      rewrite bytes_under_cons, IH. done. }
    intros es es' Hperm. rewrite !get_directory_size_sum, !Hsum.
    induction Hperm as [|n ns ns' _ IH|n1 n2 ns|ns1 ns2 ns3 _ IH1 _ IH2]; cbn; lia.
  - intros es1 es2. rewrite !get_directory_size_sum. apply bytes_under_app.
  - intros name es. rewrite !get_directory_size_sum, bytes_under_cons.
    change (bytes_under (Dir [])) with 0. unfold bytes_under. lia.
Qed.

(** ** Queue depth and current task *)




(** * Uploads, downloads and deletion *)

(** ** [save_upload_file] *)

Lemma copy_chunks_spec (reads : list (list Byte.byte)) (written : list Byte.byte)
    (total : Z) :
  copy_chunks reads written total
  = (written ++ concat (before_eof reads),
     total + Z.of_nat (length (concat (before_eof reads)))).
Proof.
  revert written total. induction reads as [|chunk rest IH]; intros written total.
  - cbn. by rewrite app_nil_r, Z.add_0_r.
  - destruct chunk as [|b chunk].
    + cbn. by rewrite app_nil_r, Z.add_0_r.
    + cbn [copy_chunks before_eof concat]. rewrite IH, <- app_assoc.
      f_equal. rewrite !length_app. lia.
Qed.

Lemma before_eof_stop (reads more : list (list Byte.byte)) :
  before_eof (reads ++ [] :: more) = before_eof reads.
Proof.
  induction reads as [|chunk rest IH]; [done|].
  destruct chunk; [done|]. cbn. by rewrite IH.
Qed.


(** X12.  [save_upload_file] writes the chunks it reads up to the first empty
    one, in order, and returns exactly the number of bytes it wrote; what the
    stream would deliver after an empty read is never written. *)
Theorem save_upload_file_size (reads more : list (list Byte.byte)) :
  (save_upload_file reads).1 = concat (before_eof reads)
  ∧ (save_upload_file reads).2 = Z.of_nat (length (save_upload_file reads).1)
  ∧ save_upload_file (reads ++ [] :: more) = save_upload_file reads
  ∧ (Forall (λ chunk, chunk ≠ []) reads → (save_upload_file reads).1 = concat reads).
Proof.
  unfold save_upload_file. rewrite !copy_chunks_spec. cbn. split_and!; try done.
  - by rewrite before_eof_stop.
  - intros Hall. f_equal. induction Hall as [|chunk rest Hne _ IH]; [done|].
    destruct chunk; [done|]. cbn. by rewrite IH.
Qed.

(** ** [upload_file] *)



(** What an accepted upload leaves. *)
Lemma upload_file_rows settings env w :
  match upload_file settings env w with
  | (w', Success _) =>
      ∃ task, tasks w' !! uuid4 env = Some task
        ∧ status task = TaskStatus.PENDING
        ∧ queue (manager w') = queue (manager w) ++ [uuid4 env]
        ∧ current_task_id (manager w') = current_task_id (manager w)
        ∧ _running (manager w') = _running (manager w)
        ∧ worker_task (manager w') = worker_task (manager w)
        ∧ dispatched w' = dispatched w
  | (w', HTTPException _ _) => w' = w
  end.
Proof.
  unfold upload_file.
  destruct (upload_filename env) as [filename|]; [|done].
  destruct (decide (filename = "")); [done|].
  destruct (upload_io_error env); [done|].
  destruct (tasks w !! uuid4 env) eqn:Hrow; [done|].
  cbn. eexists. rewrite lookup_insert_eq. by split_and!.
Qed.

(** ** The path of an upload *)









(** ** From upload to a terminal state *)



(** ** Queued identifiers have rows *)

Lemma process_task_keeps_rows settings task_id env (db : Store) id :
  is_Some (db !! id) → is_Some ((_process_task settings task_id env db).1.1 !! id).
Proof.
  intros Hrow. destruct (decide (id = task_id)) as [->|Hne];
    [|by rewrite process_task_other_rows].
  destruct Hrow as [task Hrow].
  destruct (decide (status task = TaskStatus.PENDING)) as [Hpending|Hother].
  - destruct (process_task_ends_terminal_aux settings task_id env db task Hrow Hpending)
      as (task' & -> & _). done.
  - by rewrite (process_task_skips _ _ _ _ task Hrow Hother).
Qed.

Lemma cancelled_run_keeps_rows settings task_id p (db : Store) id :
  is_Some (db !! id) → is_Some (cancelled_run settings task_id p db !! id).
Proof.
  intros Hrow. destruct p as [|now|env]; cbn; [done| |by apply process_task_keeps_rows].
  destruct (db !! task_id) as [task|] eqn:Htask; [|done].
  destruct (decide _); [done|].
  destruct (decide (id = task_id)) as [->|Hne];
    [by rewrite lookup_insert_eq|by rewrite lookup_insert_ne].
Qed.

Lemma service_step_keeps_rows settings w op id :
  is_delete op = false →
  is_Some (tasks w !! id) → is_Some (tasks (service_step settings w op) !! id).
Proof.
  intros Hop Hrow. destruct op as [uenv|task_id|utcnow|p| |env]; cbn; [|done|..].
  - unfold upload_file.
    destruct (upload_filename uenv) as [filename|]; [|done].
    destruct (decide (filename = "")); [done|].
    destruct (upload_io_error uenv); [done|].
    destruct (tasks w !! uuid4 uenv) eqn:Hfree; [done|]. cbn.
    rewrite lookup_insert_ne; [done|]. intros <-. rewrite Hfree in Hrow.
    by destruct Hrow.
  - unfold start. destruct (_running (manager w)); [done|]. cbn.
    rewrite recover_lookup. destruct Hrow as [task ->]. done.
  - unfold stop. destruct (negb _); [done|].
    destruct (current_task_id (manager w)); [|done]. cbn.
    by apply cancelled_run_keeps_rows.
  - unfold worker_get. destruct (_ && _); [|done].
    by destruct (queue (manager w)).
  - unfold worker_process.
    destruct (current_task_id (manager w)) as [task_id|]; [|done].
    pose proof (process_task_returns settings task_id env (tasks w)) as Hret.
    pose proof (process_task_keeps_rows settings task_id env (tasks w) id Hrow) as Hkeep.
    destruct (_process_task settings task_id env (tasks w)) as [[db1 records] outcome].
    cbn in *. by rewrite Hret.
Qed.

Lemma service_step_queued settings w op :
  is_delete op = false →
  queued_have_rows w → queued_have_rows (service_step settings w op).
Proof.
  intros Hop Hinv task_id Hin.
  assert (task_id ∈ option_list (current_task_id (manager w)) ++ queue (manager w)
          ∨ ∃ uenv, op = SUpload uenv ∧ task_id = uuid4 uenv
                    ∧ is_Some (tasks (service_step settings w op) !! task_id)) as [Hold|Hnew].
  { destruct op as [uenv|id|utcnow|p| |env]; cbn in Hin; [|done|..].
    - pose proof (upload_file_rows settings uenv w) as Hup.
      destruct (upload_file settings uenv w) as [w1 [r|code detail]] eqn:Hupload.
      + destruct Hup as (task & Hrow & _ & Hq & Hc & _). cbn in *.
        rewrite Hq, Hc, app_assoc in Hin. apply elem_of_app in Hin as [Hin|Hin].
        * by left.
        * right. exists uenv. apply list_elem_of_singleton in Hin as ->.
          split_and!; try done. cbn. by rewrite Hupload.
      + cbn in *. subst w1. by left.
    - left. unfold start in Hin. by destruct (_running (manager w)).
    - left. unfold stop in Hin. destruct (negb _); [done|].
      destruct (current_task_id (manager w)); cbn in Hin; set_solver.
    - left. unfold worker_get in Hin. destruct (_ && _) eqn:Hidle; [|done].
      destruct (queue (manager w)) as [|a rest] eqn:Hq; [by rewrite Hq in Hin|].
      apply andb_true_iff in Hidle as [_ Hnone%bool_decide_eq_true].
      rewrite Hnone. cbn in *. done.
    - left. unfold worker_process in Hin.
      destruct (current_task_id (manager w)) as [c|] eqn:Hc; [|by rewrite Hc in Hin].
      destruct (_process_task settings c env (tasks w)) as [[db1 records] outcome].
      cbn in *. set_solver. }
  - apply service_step_keeps_rows; [done|]. by apply Hinv.
  - by destruct Hnew as (uenv & _ & _ & Hrow).
Qed.

(** X15.  In any run of the service in which no task is deleted (uploads,
    worker passes, stops and starts, from a service that has just come up),
    every identifier in the queue and the current one have a row in the store:
    what the worker dequeues is always found.  Only a deletion can make a pass
    end at "not found". *)
Theorem queued_tasks_have_rows (settings : Settings) (db : Store)
    (ops : list ServiceOp) :
  forallb (λ op, negb (is_delete op)) ops = true →
  queued_have_rows (service_run settings ops (boot db)).
Proof.
  intros Hops.
  assert (queued_have_rows (boot db)) as Hboot.
  { intros task_id Hin. cbn in Hin. by apply elem_of_nil in Hin. }
  revert Hboot. generalize (boot db). induction ops as [|op ops IH]; intros w Hw; [done|].
  cbn in Hops. apply andb_true_iff in Hops as [Hop Hops].
  cbn [service_run fold_left]. apply IH; [done|].
  apply service_step_queued; [|done]. by apply negb_true_iff.
Qed.

Lemma queued_tasks_have_rows_witness :
  forallb (λ op, negb (is_delete op)) sample_service_run = true
  ∧ queued_have_rows (service_run sample_settings sample_service_run (boot sample_store)).
Proof.
  split; [reflexivity|].
  exact (queued_tasks_have_rows sample_settings sample_store sample_service_run eq_refl).
Defined.

(** ** [delete_task] *)


(** ** [download_assets] *)

(** The row a pass leaves when the steps up to the export size went
    through. *)
Lemma process_task_completed_row settings task_id env (db : Store) task records
    assets size :
  db !! task_id = Some task →
  status task = TaskStatus.PENDING →
  load_and_export settings task_id task env = (records, Ok (assets, size)) →
  (_process_task settings task_id env db).1.1 !! task_id
  = Some (set_completed (utcnow_finished env) assets size
            (set_processing (utcnow_started env) task)).
Proof.
  intros Hrow Hpending Hsteps. unfold _process_task. rewrite Hrow, Hsteps.
  destruct (decide _) as [|_]; [done|]. cbn.
  by rewrite lookup_alter_eq, lookup_insert_eq.
Qed.

(** X17.  What [download_assets] answers is decided in this order: no row,
    404; a row that is not COMPLETED, 400; no Assets directory, 410; then,
    when the temporary file cannot be made, the handler of line 112 fails on
    the unassigned [tmp_zip_path] and an [UnboundLocalError] leaves the
    endpoint instead of an [HTTPException]; when the archive cannot be
    built, 500 with the text of the exception; otherwise the file is sent,
    under the name of the upload cut at its last dot with "_assets.zip"
    appended.  A task that [_process_task] has just completed is sent as long
    as its Assets directory is in place and the archive can be built; a task
    whose pass failed is answered with 400. *)
Theorem download_assets_rule (settings : Settings) (task_id : string)
    (denv : DownloadEnv) (db : Store) :
  (db !! task_id = None →
   download_assets settings task_id denv db
   = Ok (HTTPException 404 ("Task " +:+ task_id +:+ " not found")))
  ∧ (∀ task, db !! task_id = Some task →
       (status task ≠ TaskStatus.COMPLETED →
        download_assets settings task_id denv db
        = Ok (HTTPException 400 ("Task " +:+ task_id +:+ " is not completed (status: "
                                 +:+ status task +:+ ")")))
       ∧ (status task = TaskStatus.COMPLETED →
          match download_fs denv (get_task_assets_dir settings task_id),
                tempfile_result denv, zip_error denv with
          | None, _, _ =>
              download_assets settings task_id denv db
              = Ok (HTTPException 410 ("Export files for task " +:+ task_id
                                       +:+ " have been cleaned up"))
          | Some _, Raise _, _ =>
              ∃ e, download_assets settings task_id denv db = Raise e
                   ∧ exn_class e = UnboundLocalError
          | Some _, Ok _, Some e =>
              download_assets settings task_id denv db
              = Ok (HTTPException 500
                      ("Failed to create download archive: " +:+ exn_str e))
          | Some _, Ok path, None =>
              download_assets settings task_id denv db
              = Ok (Success (path, rsplit_dot_head (original_filename task)
                                   +:+ "_assets.zip"))
          end))
  ∧ (∀ penv task,
       db !! task_id = Some task →
       status task = TaskStatus.PENDING →
       match (load_and_export settings task_id task penv).2 with
       | Ok _ =>
           ∀ path,
             is_Some (download_fs denv (get_task_assets_dir settings task_id)) →
             tempfile_result denv = Ok path →
             zip_error denv = None →
             download_assets settings task_id denv
               (_process_task settings task_id penv db).1.1
             = Ok (Success (path, rsplit_dot_head (original_filename task)
                                  +:+ "_assets.zip"))
       | Raise _ =>
           download_assets settings task_id denv
             (_process_task settings task_id penv db).1.1
           = Ok (HTTPException 400 ("Task " +:+ task_id
                                    +:+ " is not completed (status: FAILED)"))
       end).
Proof.
  split_and!.
  - intros Hrow. unfold download_assets. by rewrite Hrow.
  - intros task Hrow. unfold download_assets. rewrite Hrow. split.
    + intros Hstatus. by destruct (decide _).
    + intros Hstatus. destruct (decide _) as [|_]; [done|].
      destruct (download_fs denv _); [|done].
      destruct (tempfile_result denv) as [path|e]; [|by eexists].
      by destruct (zip_error denv).
  - intros penv task Hrow Hpending.
    destruct (load_and_export settings task_id task penv) as [records [[assets size]|e]] eqn:Hsteps;
      cbn [snd].
    + intros path [node Hfs] Htmp Hzip. unfold download_assets.
      rewrite (process_task_completed_row _ _ _ _ _ _ _ _ Hrow Hpending Hsteps).
      cbn -[get_task_assets_dir rsplit_dot_head]. by rewrite Hfs, Htmp, Hzip.
    + unfold download_assets, _process_task. rewrite Hrow, Hsteps.
      destruct (decide _) as [|_]; [done|].
      destruct (is_AssetRipperError (exn_class e)); cbn;
        unfold _mark_task_failed; by rewrite lookup_alter_eq, lookup_insert_eq.
Qed.

Lemma download_assets_rule_witness :
  download_assets sample_settings "t2" sample_download
    (_process_task sample_settings "t2" sample_env sample_store).1.1
  = Ok (Success ("/tmp/tmpab12.zip", "game_assets.zip"))
  ∧ download_assets sample_settings "t2" sample_download
      (_process_task sample_settings "t2" sample_env_export_timeout sample_store).1.1
    = Ok (HTTPException 400 "Task t2 is not completed (status: FAILED)")
  ∧ download_assets sample_settings "t9" sample_download sample_store
    = Ok (HTTPException 404 "Task t9 not found").
Proof.
  split_and!.
  - exact (proj2 (proj2 (download_assets_rule sample_settings "t2" sample_download
                           sample_store))
             sample_env (sample_task TaskStatus.PENDING) eq_refl eq_refl
             "/tmp/tmpab12.zip" (ex_intro _ sample_assets eq_refl) eq_refl eq_refl).
  - exact (proj2 (proj2 (download_assets_rule sample_settings "t2" sample_download
                           sample_store))
             sample_env_export_timeout (sample_task TaskStatus.PENDING) eq_refl eq_refl).
  - exact (proj1 (download_assets_rule sample_settings "t9" sample_download sample_store)
             eq_refl).
Defined.

(** ** The name of the download *)

Lemma before_last_dot_Some (s stem : string) :
  before_last_dot s = Some stem → ∃ ext, s = stem +:+ "." +:+ ext.
Proof.
  revert stem. induction s as [|c rest IH]; intros stem Hs; [done|].
  cbn in Hs. destruct (before_last_dot rest) as [stem'|].
  - injection Hs as <-. destruct (IH stem' eq_refl) as [ext ->]. by exists ext.
  - destruct (decide _) as [Hdot|]; [|done]. injection Hs as <-.
    injection Hdot as ->. by exists rest.
Qed.

Lemma before_last_dot_dotless (s : string) :
  dotless s → before_last_dot s = None.
Proof.
  intros Hs. destruct (before_last_dot s) as [stem|] eqn:Hstem; [|done].
  destruct (before_last_dot_Some s stem Hstem) as [ext ->]. by destruct (Hs stem ext).
Qed.

(** X18.  The head [rsplit_dot_head] gives for the download name: a name
    without a dot is kept whole, and a name with dots is cut at its last dot,
    so that the head followed by a dot and a dot-free extension is the
    name. *)
Theorem rsplit_dot_head_spec :
  (∀ s, dotless s → rsplit_dot_head s = s)
  ∧ (∀ stem ext, dotless ext → rsplit_dot_head (stem +:+ "." +:+ ext) = stem)
  ∧ (∀ s, rsplit_dot_head s = s
          ∨ ∃ ext, dotless ext ∧ s = rsplit_dot_head s +:+ "." +:+ ext).
Proof.
  assert (∀ stem ext, before_last_dot ext = None →
            before_last_dot (stem +:+ "." +:+ ext) = Some stem) as Hcut.
  { assert (∀ c s t, String c s +:+ t = String c (s +:+ t)) as Hcons by done.
    assert (∀ t, "" +:+ t = t) as Hnil by done.
    intros stem ext Hext. induction stem as [|c stem IH].
    - rewrite Hnil, Hcons, Hnil. cbn [before_last_dot]. rewrite Hext.
      by destruct (decide _).
    - rewrite Hcons. cbn [before_last_dot]. by rewrite IH. }
  assert (∀ s stem, before_last_dot s = Some stem →
            ∃ ext, before_last_dot ext = None ∧ s = stem +:+ "." +:+ ext) as Hsplit.
  { induction s as [|c rest IH]; intros stem Hs; [done|].
    cbn in Hs. destruct (before_last_dot rest) as [stem'|] eqn:Hrest.
    - injection Hs as <-. destruct (IH stem' eq_refl) as (ext & Hext & ->).
      by exists ext.
    - destruct (decide _) as [Hdot|]; [|done]. injection Hs as <-.
      injection Hdot as ->. by exists rest. }
  assert (∀ s1 s2, is_Some (before_last_dot (s1 +:+ "." +:+ s2))) as Hdot.
  { assert (∀ c s t, String c s +:+ t = String c (s +:+ t)) as Hcons by done.
    assert (∀ t, "" +:+ t = t) as Hnil by done.
    intros s1 s2. induction s1 as [|c s1 [stem IH]].
    - rewrite Hnil, Hcons, Hnil. cbn [before_last_dot].
      destruct (before_last_dot s2); [done|]. by destruct (decide _).
    - rewrite Hcons. cbn [before_last_dot]. by rewrite IH. }
  assert (∀ ext, before_last_dot ext = None → dotless ext) as Hdotless.
  { intros ext Hext s1 s2 ->. destruct (Hdot s1 s2) as [stem Hstem]. congruence. }
  split_and!.
  - intros s Hs. unfold rsplit_dot_head. by rewrite before_last_dot_dotless.
  - intros stem ext Hext. unfold rsplit_dot_head.
    by rewrite Hcut by by apply before_last_dot_dotless.
  - intros s. unfold rsplit_dot_head.
    destruct (before_last_dot s) as [stem|] eqn:Hs; [right|by left].
    destruct (Hsplit s stem Hs) as (ext & Hext & ->). exists ext. cbn. eauto.
Qed.

(** * The cleanup job *)



(** The job on the sample store: t2 and t3 are logged, the files of t1 could
    not be removed. *)
Example cleanup_sample_run :
  log_task_id <$> (_cleanup_old_files sample_cleanup sample_store).1.1 ≡ₚ ["t2"; "t3"]
  ∧ (_cleanup_old_files sample_cleanup sample_store).1.2 = 2
  ∧ (_cleanup_old_files sample_cleanup sample_store).2 = 1.
Proof.
  vm_compute. split_and!; try reflexivity.
  apply perm_swap.
Qed.

(** * Waiting for the worker *)

(** X20.  [_wait_for_ready] returns exactly when some pass finds the child
    alive and the probe answered with status 200, every pass before it having
    found the child alive and the probe not yet answering 200 (another status,
    a timeout or a failure in the HTTP layer); it then sets the health flag and
    changes nothing else, and the passes after that one are never made. *)
Theorem wait_for_ready_iff (settings : Settings) (self : AssetRipperManager.t)
    (polls : list Poll) (final : option Z) :
  ((AssetRipperManager._wait_for_ready settings self polls final).2 = Returned
   ↔ ∃ before p after,
       polls = before ++ p :: after
       ∧ Forall (poll_retries self) before
       ∧ poll_ready self p)
  ∧ (∀ before p after,
       polls = before ++ p :: after →
       Forall (poll_retries self) before →
       poll_ready self p →
       AssetRipperManager._wait_for_ready settings self polls final
       = (AssetRipperManager.set_is_healthy true self, Returned)).
Proof.
  assert (∀ before p after,
            Forall (poll_retries self) before → poll_ready self p →
            AssetRipperManager._wait_for_ready settings self (before ++ p :: after) final
            = (AssetRipperManager.set_is_healthy true self, Returned)) as Hready.
  { intros before p after Hbefore [Halive [detail Hreply]].
    induction Hbefore as [|q before [Hq Hretry] _ IH]; cbn.
    - by rewrite Halive, Hreply.
    - rewrite Hq. destruct (poll_reply q) as [code ?|?|?|?]; try done.
      by destruct (decide (code = 200)). }
  split.
  - split.
    + induction polls as [|q polls IH]; cbn.
      * by destruct (AssetRipperManager.child_exited self final).
      * destruct (AssetRipperManager.child_exited self (poll_returncode q)) eqn:Hq;
          [done|].
        destruct (poll_reply q) as [code detail|?|?|?] eqn:Hreply; try done.
        -- destruct (decide (code = 200)) as [->|Hcode].
           ++ intros _. exists [], q, polls. split_and!; try done.
              split; [done|by exists detail].
           ++ intros (before & p & after & -> & Hbefore & Hp)%IH.
              exists (q :: before), p, after. split_and!; try done.
              constructor; [|done]. split; [done|]. by rewrite Hreply.
        -- intros (before & p & after & -> & Hbefore & Hp)%IH.
           exists (q :: before), p, after. split_and!; try done.
           constructor; [|done]. split; [done|]. by rewrite Hreply.
        -- intros (before & p & after & -> & Hbefore & Hp)%IH.
           exists (q :: before), p, after. split_and!; try done.
           constructor; [|done]. split; [done|]. by rewrite Hreply.
    + intros (before & p & after & -> & Hbefore & Hp). by rewrite Hready.
  - intros before p after -> Hbefore Hp. by apply Hready.
Qed.
